(** * WEAPM-LOGSERVER client: a shallow embedding of [weapm_client.py]

    The development follows [src/script/weapm/weapm_client.py]:
    - Python values (decoded JSON / YAML documents) are the type [pyval];
      a [dict] with string keys is a [gmap string pyval];
    - a raised exception is a value of [exn]: its class and the pieces of
      the f-string it was built from;
    - [WeapmConfig] is the dataclass, with [from_dict] and [from_yaml];
    - [WeapmClient] methods run in a state-and-error monad whose state
      holds [self] and the list of requests handed to the session.

    Outside the embedding: the [logging] calls (they write to the process
    logger and never change a result), the wall-clock measurement around
    the request, the YAML and JSON grammars (a loaded document and a decoded
    body are given as values), and the retry loop inside urllib3 (the
    session is a function from the request to its final outcome). *)

From Stdlib Require Import ZArith String Ascii SpecFloat.
From stdpp Require Import gmap strings list fin_maps pretty sorting.

Set Warnings "-register-all".
Open Scope string_scope.
Open Scope Z_scope.

(** ** Python values *)

Inductive pyval : Type :=
  | PyNone
  | PyBool (b : bool)
  | PyInt (z : Z)
  | PyFloat (f : spec_float)
  | PyStr (s : string)
  | PyList (l : list pyval)
  | PyDict (d : gmap string pyval).

(** The float literal [0.5] (binary64: 2^52 * 2^-53). *)
Definition float_half : spec_float := S754_finite false 4503599627370496 (-53).

(** [bool(v)]: the truth value Python gives to [v] in [if v:]. *)
Definition py_truthy (v : pyval) : bool :=
  match v with
  | PyNone => false
  | PyBool b => b
  | PyInt z => negb (z =? 0)
  | PyFloat (S754_zero _) => false
  | PyFloat _ => true
  | PyStr s => negb (String.eqb s "")
  | PyList l => match l with [] => false | _ => true end
  | PyDict d => negb (bool_decide (d = ∅))
  end.

(** [v == 0]: Python compares numbers by value, so [False], [0], [0.0] and
    [-0.0] are all equal to [0]; nothing else is. *)
Definition py_eq_zero (v : pyval) : bool :=
  match v with
  | PyBool b => negb b
  | PyInt z => z =? 0
  | PyFloat (S754_zero _) => true
  | _ => false
  end.

(** ** Strings *)

Fixpoint str_mem (c : ascii) (chars : string) : bool :=
  match chars with
  | EmptyString => false
  | String c' rest => if Ascii.eqb c c' then true else str_mem c rest
  end.

(** [s.rstrip(chars)]: drop the longest suffix made of characters of
    [chars]. Strings are byte strings here; the only call strips ['/'],
    an ASCII byte that never occurs inside a UTF-8 multi-byte sequence. *)
Fixpoint rstrip (chars s : string) : string :=
  match s with
  | EmptyString => EmptyString
  | String c s' =>
      match rstrip chars s' with
      | EmptyString => if str_mem c chars then EmptyString else String c EmptyString
      | String _ _ as r => String c r
      end
  end.

(** [s in t] for two strings: [s] occurs in [t] as a substring. *)
Fixpoint str_contains (s t : string) : bool :=
  if String.prefix s t then true
  else match t with
       | EmptyString => false
       | String _ t' => str_contains s t'
       end.

(** Number of ['/'] characters [s] starts with, and ends with. *)
Fixpoint leading_slashes (s : string) : nat :=
  match s with
  | String "/" s' => S (leading_slashes s')
  | _ => O
  end.

Fixpoint all_slashes (s : string) : bool :=
  match s with
  | EmptyString => true
  | String c s' => (Ascii.eqb c "/" && all_slashes s')%bool
  end.

Fixpoint trailing_slashes (s : string) : nat :=
  match s with
  | EmptyString => O
  | String c s' =>
      if (Ascii.eqb c "/" && all_slashes s')%bool then S (String.length s')
      else trailing_slashes s'
  end.

(** How many ['/'] meet where [left] and [right] are joined: 0 is a missing
    slash, 2 or more a doubled one. *)
Definition slashes_at_junction (left right : string) : nat :=
  (trailing_slashes left + leading_slashes right)%nat.

(** ** Exceptions *)

Inductive exn_class : Type :=
  | FileNotFoundError
  | ValueError
  | TypeError
  | AttributeError
  | KeyError
  | Timeout
  | ConnectionError
  | HTTPError
  | RequestException
  | SystemExit
  | OtherError (name : string).

(** A piece of an f-string: literal text, [{v}] for a value, the
    [list(d.keys())] of a document, or a text that a library or the peer
    supplies and that is named here, not modelled. *)
Inductive fragment : Type :=
  | Lit (s : string)
  | Fmt (v : pyval)
  | FmtKeys (ks : gset string)
  | FmtLib (what : string).

Record exn : Type := Exn { exn_class_of : exn_class; exn_message : list fragment }.

(** What [except ValueError] catches: the class and the classes derived from
    it that are not listed above. *)
Definition is_ValueError (cls : exn_class) : bool :=
  match cls with
  | ValueError => true
  | OtherError name =>
      bool_decide (name ∈ ["UnicodeError"; "UnicodeDecodeError"; "UnicodeEncodeError";
                           "UnicodeTranslateError"; "JSONDecodeError"])
  | _ => false
  end.

(** What [except FileNotFoundError] catches. *)
Definition is_FileNotFoundError (cls : exn_class) : bool :=
  match cls with
  | FileNotFoundError => true
  | _ => false
  end.

Inductive result (A : Type) : Type :=
  | Ok (a : A)
  | Raise (e : exn).
Arguments Ok {A} a.
Arguments Raise {A} e.

Definition result_bind {A B} (r : result A) (k : A → result B) : result B :=
  match r with
  | Ok a => k a
  | Raise e => Raise e
  end.

Notation "'let*' x ':=' r 'in' k" := (result_bind r (fun x => k))
  (at level 10, x name, r at level 100, k at level 200).

(** [str(v)] for the values whose text needs no [repr]: used to render a
    message; [None] where the text would need float or container printing. *)
Definition py_str (v : pyval) : option string :=
  match v with
  | PyNone => Some "None"
  | PyBool true => Some "True"
  | PyBool false => Some "False"
  | PyInt z => Some (pretty z)
  | PyStr s => Some s
  | _ => None
  end.

Fixpoint render (m : list fragment) : option string :=
  match m with
  | [] => Some ""
  | Lit s :: m' => String.append s <$> render m'
  | Fmt v :: m' =>
      match py_str v, render m' with
      | Some s, Some r => Some (s +:+ r)
      | _, _ => None
      end
  | FmtKeys _ :: _ => None
  | FmtLib _ :: _ => None
  end.

(** ** Attribute and item access on values *)

(** [v.get(key, dflt)]: only a [dict] has [get]. *)
Definition py_get (v : pyval) (key : string) (dflt : pyval) : result pyval :=
  match v with
  | PyDict d => Ok (default dflt (d !! key))
  | _ => Raise (Exn AttributeError [Lit "object has no attribute 'get'"])
  end.

(** [key in v] for a string [key]. *)
Definition py_contains_str (key : string) (v : pyval) : result bool :=
  match v with
  | PyDict d => Ok (bool_decide (is_Some (d !! key)))
  | PyList l => Ok (existsb (fun x => match x with PyStr s => String.eqb s key | _ => false end) l)
  | PyStr t => Ok (str_contains key t)
  | _ => Raise (Exn TypeError [Lit "argument is not iterable"])
  end.

(** [k in d] for a [dict] with string keys and any value [k]: a list or a
    dict is unhashable; a hashable [k] that is not a string is no key. *)
Definition py_dict_contains (k : pyval) (d : gmap string pyval) : result bool :=
  match k with
  | PyStr s => Ok (bool_decide (is_Some (d !! s)))
  | PyList _ | PyDict _ => Raise (Exn TypeError [Lit "unhashable type"])
  | _ => Ok false
  end.

(** [v[key]] for a string [key]. *)
Definition py_getitem_str (v : pyval) (key : string) : result pyval :=
  match v with
  | PyDict d =>
      match d !! key with
      | Some x => Ok x
      | None => Raise (Exn KeyError [Fmt (PyStr key)])
      end
  | PyList _ | PyStr _ => Raise (Exn TypeError [Lit "indices must be integers"])
  | _ => Raise (Exn TypeError [Lit "object is not subscriptable"])
  end.

(** ** The configuration dataclass *)

Module WeapmConfig.

(** [@dataclass class WeapmConfig]: nine fields. The annotations are not
    enforced by Python, and [from_dict] stores whatever the document
    holds, so every field is a [pyval]. *)
Record t : Type := Make {
  base_url : pyval;
  username : pyval;
  password : pyval;
  timeout : pyval;
  max_retries : pyval;
  retry_backoff_factor : pyval;
  pool_connections : pyval;
  pool_maxsize : pyval;
  enable_logging : pyval
}.

(** The decorator is the bare [@dataclass]: [frozen] keeps its default. *)
Definition frozen : bool := false.

Inductive field : Type :=
  | F_base_url | F_username | F_password | F_timeout | F_max_retries
  | F_retry_backoff_factor | F_pool_connections | F_pool_maxsize
  | F_enable_logging.

Definition getattr (c : t) (f : field) : pyval :=
  match f with
  | F_base_url => base_url c
  | F_username => username c
  | F_password => password c
  | F_timeout => timeout c
  | F_max_retries => max_retries c
  | F_retry_backoff_factor => retry_backoff_factor c
  | F_pool_connections => pool_connections c
  | F_pool_maxsize => pool_maxsize c
  | F_enable_logging => enable_logging c
  end.

Definition update (c : t) (f : field) (v : pyval) : t :=
  match f with
  | F_base_url => Make v (username c) (password c) (timeout c) (max_retries c)
                    (retry_backoff_factor c) (pool_connections c) (pool_maxsize c) (enable_logging c)
  | F_username => Make (base_url c) v (password c) (timeout c) (max_retries c)
                    (retry_backoff_factor c) (pool_connections c) (pool_maxsize c) (enable_logging c)
  | F_password => Make (base_url c) (username c) v (timeout c) (max_retries c)
                    (retry_backoff_factor c) (pool_connections c) (pool_maxsize c) (enable_logging c)
  | F_timeout => Make (base_url c) (username c) (password c) v (max_retries c)
                    (retry_backoff_factor c) (pool_connections c) (pool_maxsize c) (enable_logging c)
  | F_max_retries => Make (base_url c) (username c) (password c) (timeout c) v
                    (retry_backoff_factor c) (pool_connections c) (pool_maxsize c) (enable_logging c)
  | F_retry_backoff_factor => Make (base_url c) (username c) (password c) (timeout c) (max_retries c)
                    v (pool_connections c) (pool_maxsize c) (enable_logging c)
  | F_pool_connections => Make (base_url c) (username c) (password c) (timeout c) (max_retries c)
                    (retry_backoff_factor c) v (pool_maxsize c) (enable_logging c)
  | F_pool_maxsize => Make (base_url c) (username c) (password c) (timeout c) (max_retries c)
                    (retry_backoff_factor c) (pool_connections c) v (enable_logging c)
  | F_enable_logging => Make (base_url c) (username c) (password c) (timeout c) (max_retries c)
                    (retry_backoff_factor c) (pool_connections c) (pool_maxsize c) v
  end.

(** [config.f = v] on an instance. A dataclass generated with
    [frozen=True] raises [FrozenInstanceError] (a subclass of
    [AttributeError]); otherwise the attribute is rebound. *)
Definition setattr (c : t) (f : field) (v : pyval) : result t :=
  if frozen then Raise (Exn AttributeError [Lit "cannot assign to field"])
  else Ok (update c f v).

(** [WeapmConfig.from_dict]. *)
Definition from_dict (config_dict : pyval) : result t :=
  let* base_url := py_get config_dict "base_url" (PyStr "") in
  let* username := py_get config_dict "username" (PyStr "weapmUser") in
  let* password := py_get config_dict "password" (PyStr "Weapm@123admin") in
  let* timeout := py_get config_dict "timeout" (PyInt 30) in
  let* max_retries := py_get config_dict "max_retries" (PyInt 3) in
  let* retry_backoff_factor := py_get config_dict "retry_backoff_factor" (PyFloat float_half) in
  let* pool_connections := py_get config_dict "pool_connections" (PyInt 10) in
  let* pool_maxsize := py_get config_dict "pool_maxsize" (PyInt 10) in
  let* enable_logging := py_get config_dict "enable_logging" (PyBool true) in
  Ok (Make base_url username password timeout max_retries retry_backoff_factor
        pool_connections pool_maxsize enable_logging).

(** What [from_yaml] sees of the machine: the directory of the module
    file, and for a path either nothing ([os.path.exists] is false) or
    the outcome of [open] followed by [yaml.safe_load]. Mapping keys of a
    loaded document are strings. *)
Record filesystem : Type := {
  script_dir : string;
  load : string → option (result pyval)
}.

(** [WeapmConfig.from_yaml(config_path, env)]. *)
Definition from_yaml (fs : filesystem) (config_path env : option string) : result t :=
  let config_path := default (script_dir fs +:+ "/config.yaml") config_path in
  match load fs config_path with
  | None => Raise (Exn FileNotFoundError [Lit "配置文件不存在: "; Fmt (PyStr config_path)])
  | Some loaded =>
      let* config_data := loaded in
      let* env :=
        match env with
        | None => py_get config_data "active_env" (PyStr "dev")
        | Some e => Ok (PyStr e)
        end in
      let* present :=
        match env, config_data with
        | PyStr e, _ => py_contains_str e config_data
        | _, PyDict d => py_dict_contains env d
        | _, _ => Raise (Exn TypeError [Lit "argument is not iterable"])
        end in
      if negb present then
        match config_data with
        | PyDict d =>
            Raise (Exn ValueError
                     [Lit "环境配置不存在: "; Fmt env; Lit ", 可用环境: "; FmtKeys (dom d)])
        | _ => Raise (Exn AttributeError [Lit "object has no attribute 'keys'"])
        end
      else
        let* env_config :=
          match env with
          | PyStr e => py_getitem_str config_data e
          | _ => Raise (Exn KeyError [Fmt env])
          end in
        let* has_base_url := py_contains_str "base_url" env_config in
        if negb has_base_url then
          Raise (Exn ValueError [Lit "环境 "; Fmt env; Lit " 缺少必要字段: base_url"])
        else
          let* description := py_get env_config "description" env in
          from_dict env_config
  end.

End WeapmConfig.

(** ** The transport: [requests] and [urllib3] as the client uses them *)

(** [urllib3.util.retry.Retry(...)] with the four keywords the client sets. *)
Record Retry : Type := {
  total : pyval;
  backoff_factor : pyval;
  status_forcelist : list Z;
  method_whitelist : list string
}.

(** [requests.adapters.HTTPAdapter(...)]; [None] is the adapter a fresh
    session mounts by default. *)
Record HTTPAdapter : Type := {
  adapter_max_retries : option Retry;
  adapter_pool_connections : pyval;
  adapter_pool_maxsize : pyval
}.

Definition default_adapter : HTTPAdapter :=
  {| adapter_max_retries := None;
     adapter_pool_connections := PyInt 10;
     adapter_pool_maxsize := PyInt 10 |}.

(** [requests.Session]: credentials, mounted adapters by URL prefix, and
    whether [close()] has released its pooled connections. *)
Record Session : Type := {
  auth : option (pyval * pyval);
  adapters : gmap string HTTPAdapter;
  closed : bool
}.

(** [requests.Session()]. *)
Definition new_session : Session :=
  {| auth := None;
     adapters := <["https://" := default_adapter]> (<["http://" := default_adapter]> ∅);
     closed := false |}.

Definition session_set_auth (s : Session) (a : pyval * pyval) : Session :=
  {| auth := Some a; adapters := adapters s; closed := closed s |}.

(** [session.mount(prefix, adapter)]. *)
Definition session_mount (s : Session) (prefix : string) (a : HTTPAdapter) : Session :=
  {| auth := auth s; adapters := <[prefix := a]> (adapters s); closed := closed s |}.

(** [session.close()]. *)
Definition session_close (s : Session) : Session :=
  {| auth := auth s; adapters := adapters s; closed := true |}.

(** One call of [session.request(method, url, **kwargs)]. *)
Record request : Type := {
  req_method : string;
  req_url : string;
  req_kwargs : gmap string pyval
}.

(** A [requests.Response] as [_request] reads it: the status, the text (a
    string of characters, held as its UTF-8 bytes), and what
    [response.json()] gives ([None]: it raises the [json.JSONDecodeError] of
    the standard library, which is what [requests] raises unless the
    [simplejson] package is installed). *)
Record Response : Type := {
  status_code : Z;
  text : string;
  json : option pyval
}.

(** [response.raise_for_status()]: an [HTTPError] for 4xx and 5xx, whose
    message names the status, the reason phrase and the URL of the response
    (the URL of the request as the session sent it). *)
Definition raise_for_status (url : string) (r : Response) : result unit :=
  if (400 <=? status_code r) && (status_code r <? 600) then
    Raise (Exn HTTPError
             [Fmt (PyInt (status_code r));
              Lit (if status_code r <? 500 then " Client Error: " else " Server Error: ");
              FmtLib "response.reason"; Lit " for url: "; FmtLib "response.url"])
  else Ok tt.

(** Whether a byte continues a UTF-8 character (it is [10xxxxxx]). *)
Definition utf8_continuation (c : ascii) : bool :=
  match c with
  | Ascii _ _ _ _ _ _ b6 b7 => b7 && negb b6
  end.

(** The first [n] characters of a string held as UTF-8 bytes: the bytes up
    to, not including, the first byte of character [n + 1]. *)
Fixpoint utf8_take (n : nat) (s : string) : string :=
  match s with
  | EmptyString => EmptyString
  | String c s' =>
      if utf8_continuation c then String c (utf8_take n s')
      else match n with
           | O => EmptyString
           | S n' => String c (utf8_take n' s')
           end
  end.

(** [len(s)]: the number of characters, one per byte that starts one. *)
Fixpoint utf8_length (s : string) : nat :=
  match s with
  | EmptyString => O
  | String c s' => if utf8_continuation c then utf8_length s' else S (utf8_length s')
  end.

(** [s[:n]]: the first [n] characters. *)
Definition str_take (n : nat) (s : string) : string := utf8_take n s.

(** The remote end: the final outcome of a request (after the adapter's
    retries), which may depend on the session and on what was sent before.
    With the adapter [__init__] mounts, a response whose status the retry
    policy keeps retrying is no such outcome for the methods it lists: once
    the attempts are used up the session raises instead of returning it. *)
Definition server : Type := Session → list request → request → result Response.

(** ** The client *)

Module WeapmClient.

Record t : Type := Make {
  config : WeapmConfig.t;
  session : Session;
  base_url : string;
  timeout : pyval
}.

(** The retry policy and the adapter of [__init__]. *)
Definition retry_strategy (config : WeapmConfig.t) : Retry :=
  {| total := WeapmConfig.max_retries config;
     backoff_factor := WeapmConfig.retry_backoff_factor config;
     status_forcelist := [429; 500; 502; 503; 504];
     method_whitelist := ["HEAD"; "GET"; "OPTIONS"; "POST"; "PUT"; "DELETE"] |}.

Definition adapter (config : WeapmConfig.t) : HTTPAdapter :=
  {| adapter_max_retries := Some (retry_strategy config);
     adapter_pool_connections := WeapmConfig.pool_connections config;
     adapter_pool_maxsize := WeapmConfig.pool_maxsize config |}.

(** The releases of urllib3 differ in one thing [__init__] relies on:
    [Retry] takes the keyword [method_whitelist] in the 1.x releases
    (deprecated in 1.26) and no longer from 2.0 on. *)
Inductive urllib3_release : Type :=
  | Urllib3_1
  | Urllib3_2.

(** [WeapmClient.__init__(config)] with a given release of urllib3
    installed. [config.base_url.rstrip('/')] needs a string; any other value
    has no [rstrip]. The [Retry(...)] that follows is a [TypeError] where
    [method_whitelist] is no keyword of it. *)
Definition init_under (release : urllib3_release) (config : WeapmConfig.t) : result t :=
  let session := new_session in
  let session :=
    session_set_auth session (WeapmConfig.username config, WeapmConfig.password config) in
  match WeapmConfig.base_url config with
  | PyStr b =>
      let base_url := rstrip "/" b in
      let timeout := WeapmConfig.timeout config in
      match release with
      | Urllib3_1 =>
          let session := session_mount session "http://" (adapter config) in
          let session := session_mount session "https://" (adapter config) in
          Ok (Make config session base_url timeout)
      | Urllib3_2 =>
          Raise (Exn TypeError [Lit "unexpected keyword argument 'method_whitelist'"])
      end
  | _ => Raise (Exn AttributeError [Lit "object has no attribute 'rstrip'"])
  end.

(** [WeapmClient.__init__(config)] where urllib3 is a 1.x release: the
    releases the module was written for, and the only ones under which a
    client can be built at all. *)
Definition __init__ (config : WeapmConfig.t) : result t := init_under Urllib3_1 config.

(** The state a method runs in: [self], and the calls made on the session
    so far, oldest first. *)
Record state : Type := {
  self : t;
  sent : list request
}.

Definition M (A : Type) : Type := state → result A * state.

Definition mret {A} (a : A) : M A := fun st => (Ok a, st).

Definition mbind {A B} (m : M A) (k : A → M B) : M B :=
  fun st =>
    match m st with
    | (Ok a, st') => k a st'
    | (Raise e, st') => (Raise e, st')
    end.

Definition lift {A} (r : result A) : M A := fun st => (r, st).

Notation "'let!' x ':=' m 'in' k" := (mbind m (fun x => k))
  (at level 10, x name, m at level 100, k at level 200).

(** [kwargs.setdefault(key, v)]. *)
Definition setdefault (key : string) (v : pyval) (kwargs : gmap string pyval)
  : gmap string pyval :=
  match kwargs !! key with
  | Some _ => kwargs
  | None => <[key := v]> kwargs
  end.

(** The business check of [_request] on the decoded body. *)
Definition check_code (data : pyval) : result pyval :=
  match data with
  | PyDict d =>
      match d !! "code" with
      | Some code =>
          if negb (py_eq_zero code) then
            let error_msg := default (PyStr "未知错误") (d !! "message") in
            Raise (Exn HTTPError [Lit "API 错误 (code "; Fmt code; Lit "): "; Fmt error_msg])
          else Ok data
      | None => Ok data
      end
  | _ => Ok data
  end.

(** The four [except] clauses of [_request]: each logs and re-raises the
    exception it caught; any other exception is not caught. *)
Definition except_clauses {A} (r : result A) : result A :=
  match r with
  | Ok a => Ok a
  | Raise e =>
      match exn_class_of e with
      | Timeout => Raise e
      | ConnectionError => Raise e
      | HTTPError => Raise e
      | RequestException => Raise e
      | _ => Raise e
      end
  end.

(** The first two statements of [_request]: the URL is the stored base URL
    followed by the endpoint, and the client's timeout is the default. *)
Definition prepare (c : t) (method endpoint : string) (kwargs : gmap string pyval)
  : request :=
  let url := base_url c +:+ endpoint in
  let kwargs := setdefault "timeout" (timeout c) kwargs in
  {| req_method := method; req_url := url; req_kwargs := kwargs |}.

Section Methods.

Variable srv : server.

(** [WeapmClient._request(method, endpoint, **kwargs)]. *)
Definition _request (method endpoint : string) (kwargs : gmap string pyval) : M pyval :=
  fun st =>
    let rq := prepare (self st) method endpoint kwargs in
    let outcome :=
      let* response := srv (session (self st)) (sent st) rq in
      let* _ := raise_for_status (req_url rq) response in
      let* data :=
        match json response with
        | Some data => Ok data
        | None => Raise (Exn ValueError
                           [Lit "无效的 JSON 响应: "; Lit (str_take 200 (text response))])
        end in
      check_code data in
    (except_clauses outcome, {| self := self st; sent := sent st ++ [rq] |}).

Definition get_dashboard : M pyval :=
  _request "GET" "/operation/dashboard" ∅.

Definition get_clusters : M pyval :=
  let! response := _request "GET" "/operation/clusters" ∅ in
  lift (py_get response "result" (PyList [])).

Definition get_cluster_detail (cluster_name : string) : M pyval :=
  _request "GET" ("/operation/clusters/" +:+ cluster_name) ∅.

(** The [data] dictionary [add_cluster_node] builds; [data.update(kwargs)]
    lets a keyword override a key already there. *)
Definition add_cluster_node_data (cluster_name address role : string)
    (cpulimit memlimit : option string) (kwargs : gmap string pyval)
  : gmap string pyval :=
  let data : gmap string pyval :=
    <["address" := PyStr address]>
      (<["clustername" := PyStr cluster_name]> (<["role" := PyStr role]> ∅)) in
  let data := match cpulimit with Some v => <["cpulimit" := PyStr v]> data | None => data end in
  let data := match memlimit with Some v => <["memlimit" := PyStr v]> data | None => data end in
  kwargs ∪ data.

Definition add_cluster_node (cluster_name address role : string)
    (cpulimit memlimit : option string) (kwargs : gmap string pyval) : M pyval :=
  let data := add_cluster_node_data cluster_name address role cpulimit memlimit kwargs in
  _request "POST" ("/operation/clusters/" +:+ cluster_name +:+ "/nodes")
    {["json" := PyDict data]}.

Definition delete_cluster_node (ip : string) : M pyval :=
  _request "DELETE" ("/operation/clusters/nodes/" +:+ ip) ∅.

Definition get_cluster_subsystems (cluster_name : string) : M pyval :=
  let! response :=
    _request "GET" ("/operation/cluster/" +:+ cluster_name +:+ "/subsystems") ∅ in
  lift (py_get response "result" (PyList [])).

Definition check_subsystem_exists (subsystem_id : string) : M pyval :=
  _request "GET" ("/operation/subsystem/exists/" +:+ subsystem_id) ∅.

Definition add_subsystem (sub_system_id log_import_value log_import_files : string)
    (traffic : Z) (cluster : string) : M pyval :=
  let data : gmap string pyval :=
    <["subSystemId" := PyStr sub_system_id]>
      (<["logImportValue" := PyStr log_import_value]>
         (<["logImportFiles" := PyStr log_import_files]>
            (<["traffic" := PyInt traffic]> (<["cluster" := PyStr cluster]> ∅)))) in
  _request "POST" "/operation/subsystem" {["json" := PyDict data]}.

Definition adjust_subsystem_cluster (subsystem_id target_cluster_name
    log_import_value log_import_files : string) (traffic : Z) : M pyval :=
  let endpoint :=
    "/operation/subsystem/" +:+ subsystem_id +:+ "?targetClusterName=" +:+ target_cluster_name
    +:+ "&logImportValue=" +:+ log_import_value +:+ "&logImportFiles=" +:+ log_import_files
    +:+ "&traffic=" +:+ pretty traffic in
  _request "POST" endpoint ∅.

Definition adjust_subsystem_status (subsystem_id status : string) : M pyval :=
  _request "POST" ("/operation/subsystem/" +:+ subsystem_id +:+ "/status/" +:+ status) ∅.

Definition enable_subsystem (subsystem_id : string) : M pyval :=
  _request "PUT" ("/operation/subsystem/" +:+ subsystem_id +:+ "/enable") ∅.

Definition get_subsystem_detail (subsystem_id : string) : M pyval :=
  _request "GET" ("/operation/subsystem/" +:+ subsystem_id) ∅.

Definition get_subsystems : M pyval :=
  let! response := _request "GET" "/operation/subsystems" ∅ in
  lift (py_get response "result" (PyList [])).

(** The [params] dictionary of [search_subsystems]. [if subsys_id:] is
    the truth value of an optional string. *)
Definition search_params (subsys_id : option string) (limit : Z) : gmap string pyval :=
  let params : gmap string pyval := ∅ in
  let params :=
    if py_truthy (from_option PyStr PyNone subsys_id)
    then <["subsysId" := from_option PyStr PyNone subsys_id]> params else params in
  let params :=
    if negb (limit =? 20) then <["limit" := PyInt limit]> params else params in
  params.

Definition search_subsystems (subsys_id : option string) (limit : Z) : M pyval :=
  let params := search_params subsys_id limit in
  let! response :=
    _request "GET" "/operation/subsystems/search" {["params" := PyDict params]} in
  lift (py_get response "result" (PyList [])).

(** [close]: [self.session.close()]. *)
Definition close : M pyval :=
  fun st =>
    let c := self st in
    (Ok PyNone,
     {| self := Make (config c) (session_close (session c)) (base_url c) (timeout c);
        sent := sent st |}).

(** [__enter__] returns [self]. *)
Definition __enter__ : M t := fun st => (Ok (self st), st).

Definition traceback : Type := list string.

(** [__exit__(exc_type, exc_val, exc_tb)]: calls [close()] and falls off
    the end, so it returns [None]. *)
Definition __exit__ (exc_type : option exn_class) (exc_val : option exn)
    (exc_tb : option traceback) : M pyval :=
  let! _ := close in
  mret PyNone.

(** How a block of statements ends: it runs to its end, an exception
    leaves it, or [return] / [break] / [continue] leaves it early. *)
Inductive completion : Type :=
  | Normal
  | Raised (e : exn) (tb : traceback)
  | Abrupt.

Definition block : Type := state → completion * state.

(** [with <self> as client: body], by the rules of the [with] statement:
    [__enter__] is called, the body runs, and [__exit__] is called with
    the exception triple (three [None] when no exception left the body);
    an exception is swallowed only if [__exit__] returns a true value. *)
Definition with_client (body : t → block) : block :=
  fun st =>
    match __enter__ st with
    | (Raise e, st1) => (Raised e [], st1)
    | (Ok client, st1) =>
        match body client st1 with
        | (Raised e tb, st2) =>
            match __exit__ (Some (exn_class_of e)) (Some e) (Some tb) st2 with
            | (Ok r, st3) => if py_truthy r then (Normal, st3) else (Raised e tb, st3)
            | (Raise e', st3) => (Raised e' [], st3)
            end
        | (c, st2) =>
            match __exit__ None None None st2 with
            | (Ok _, st3) => (c, st3)
            | (Raise e', st3) => (Raised e' [], st3)
            end
        end
    end.

(** Every method of the class, as a call with its arguments. *)
Inductive call : Type :=
  | Call_request (method endpoint : string) (kwargs : gmap string pyval)
  | Call_get_dashboard
  | Call_get_clusters
  | Call_get_cluster_detail (cluster_name : string)
  | Call_add_cluster_node (cluster_name address role : string)
      (cpulimit memlimit : option string) (kwargs : gmap string pyval)
  | Call_delete_cluster_node (ip : string)
  | Call_get_cluster_subsystems (cluster_name : string)
  | Call_check_subsystem_exists (subsystem_id : string)
  | Call_add_subsystem (sub_system_id log_import_value log_import_files : string)
      (traffic : Z) (cluster : string)
  | Call_adjust_subsystem_cluster (subsystem_id target_cluster_name
      log_import_value log_import_files : string) (traffic : Z)
  | Call_adjust_subsystem_status (subsystem_id status : string)
  | Call_enable_subsystem (subsystem_id : string)
  | Call_get_subsystem_detail (subsystem_id : string)
  | Call_get_subsystems
  | Call_search_subsystems (subsys_id : option string) (limit : Z)
  | Call_close
  | Call_enter
  | Call_exit (exc_type : option exn_class) (exc_val : option exn)
      (exc_tb : option traceback).

(** A call that is one of the typed operations, not a bare [_request]. *)
Definition typed_operation (c : call) : bool :=
  match c with
  | Call_request _ _ _ => false
  | _ => true
  end.

(** The four list-style operations: they unwrap [result]. *)
Definition list_style (c : call) : bool :=
  match c with
  | Call_get_clusters | Call_get_subsystems
  | Call_get_cluster_subsystems _ | Call_search_subsystems _ _ => true
  | _ => false
  end.

(** What a call gives back: a value, or the client itself. *)
Inductive returned : Type :=
  | Value (v : pyval)
  | Self (c : t).

Definition returning (m : M pyval) : M returned :=
  let! v := m in mret (Value v).

Definition run (c : call) : M returned :=
  match c with
  | Call_request method endpoint kwargs => returning (_request method endpoint kwargs)
  | Call_get_dashboard => returning get_dashboard
  | Call_get_clusters => returning get_clusters
  | Call_get_cluster_detail n => returning (get_cluster_detail n)
  | Call_add_cluster_node n a r cpu mem kw => returning (add_cluster_node n a r cpu mem kw)
  | Call_delete_cluster_node ip => returning (delete_cluster_node ip)
  | Call_get_cluster_subsystems n => returning (get_cluster_subsystems n)
  | Call_check_subsystem_exists i => returning (check_subsystem_exists i)
  | Call_add_subsystem i v f tr cl => returning (add_subsystem i v f tr cl)
  | Call_adjust_subsystem_cluster i n v f tr =>
      returning (adjust_subsystem_cluster i n v f tr)
  | Call_adjust_subsystem_status i s => returning (adjust_subsystem_status i s)
  | Call_enable_subsystem i => returning (enable_subsystem i)
  | Call_get_subsystem_detail i => returning (get_subsystem_detail i)
  | Call_get_subsystems => returning get_subsystems
  | Call_search_subsystems i l => returning (search_subsystems i l)
  | Call_close => returning close
  | Call_enter => let! c := __enter__ in mret (Self c)
  | Call_exit ty v tb => returning (__exit__ ty v tb)
  end.

(** A sequence of calls, each made whether or not the one before it
    raised (the caller may catch and go on). *)
Fixpoint run_all (cs : list call) (st : state) : state :=
  match cs with
  | [] => st
  | c :: cs' => run_all cs' (snd (run c st))
  end.

End Methods.

End WeapmClient.

(** ** Sample data *)

Definition sample_config (base : string) : WeapmConfig.t :=
  WeapmConfig.Make (PyStr base) (PyStr "weapmUser") (PyStr "Weapm@123admin") (PyInt 30)
    (PyInt 3) (PyFloat float_half) (PyInt 10) (PyInt 10) (PyBool true).

(** The client [__init__] builds from a configuration with a string URL. *)
Definition sample_client (base : string) : WeapmClient.t :=
  match WeapmClient.__init__ (sample_config base) with
  | Ok c => c
  | Raise _ => WeapmClient.Make (sample_config base) new_session base PyNone
  end.

Definition sample_state (base : string) : WeapmClient.state :=
  {| WeapmClient.self := sample_client base; WeapmClient.sent := [] |}.

(** A remote end that answers every request with the same status and
    decoded body. *)
Definition answering (status : Z) (body : pyval) : server :=
  fun _ _ _ => Ok {| status_code := status; text := ""; json := Some body |}.

Definition dict_of (l : list (string * pyval)) : gmap string pyval := list_to_map l.

Definition body_code7 : gmap string pyval :=
  dict_of [("code", PyInt 7); ("message", PyStr "m")].

Definition body_clusters : gmap string pyval :=
  dict_of [("code", PyInt 0);
           ("result", PyList [PyDict (dict_of [("clustername", PyStr "a")])])].

Definition body_code0 : gmap string pyval := dict_of [("code", PyInt 0)].

(** A file system holding one document at [config.yaml]. *)
Definition one_file (doc : pyval) : WeapmConfig.filesystem :=
  {| WeapmConfig.script_dir := "/opt/weapm";
     WeapmConfig.load := fun p => if String.eqb p "config.yaml" then Some (Ok doc) else None |}.


Definition doc_dev_ok : gmap string pyval :=
  dict_of [("dev", PyDict (dict_of [("base_url", PyStr "http://host:8080/")]))].

Definition doc_prod_only : gmap string pyval :=
  dict_of [("active_env", PyStr "prod");
           ("prod", PyDict (dict_of [("username", PyStr "u")]))].

(** ** Calls that reach the session *)

(** The calls whose body ends in [self._request(...)]: everything except
    [close], [__enter__] and [__exit__]. *)
Definition sends_request (c : WeapmClient.call) : bool :=
  match c with
  | WeapmClient.Call_close | WeapmClient.Call_enter
  | WeapmClient.Call_exit _ _ _ => false
  | _ => true
  end.

(** How many of the calls of a sequence reach the session. *)
Definition requests_made (cs : list WeapmClient.call) : nat :=
  length (filter (fun c => sends_request c = true) cs).

(** What a method does with the value [_request] returned: the list-style
    ones take [result] out of it, the others hand it on. *)
Definition unwrap (c : WeapmClient.call) (v : pyval) : result pyval :=
  if WeapmClient.list_style c then py_get v "result" (PyList []) else Ok v.

(** The calls that end in [self.session.close()]. *)
Definition closes_session (c : WeapmClient.call) : bool :=
  match c with
  | WeapmClient.Call_close | WeapmClient.Call_exit _ _ _ => true
  | _ => false
  end.

(** ** The command line tool: [weapm_cli.py] *)

Module WeapmCli.

(** What [parse_args] gives for the chosen sub-command, with the attributes
    its sub-parser declares ([argparse] accepts no other command name). *)
Inductive subcommand : Type :=
  | Cmd_dashboard
  | Cmd_clusters (detail : bool) (cluster_name : option string)
  | Cmd_subsystems (search : bool) (subsys_id check detail : option string) (limit : Z)
  | Cmd_add_node (cluster_name address role : string)
      (cpulimit memlimit topic bucketnames backenddomain storagedomain status : option string)
  | Cmd_delete_node (ip : string).

(** The global options of the [Namespace]; [command] is [None] when no
    sub-command was given. *)
Record Args : Type := {
  config : option string;
  env : option string;
  base_url : option string;
  username : option string;
  password : option string;
  timeout : Z;
  quiet : bool;
  output : string;
  command : option subcommand
}.

(** A call of [print]: a text, or [json.dumps(v, indent=2,
    ensure_ascii=False)] of a value. *)
Inductive line : Type :=
  | Text (msg : list fragment)
  | Dump (v : pyval).

Record cli_state : Type := {
  client_state : WeapmClient.state;
  stdout : list line
}.

Definition C (A : Type) : Type := cli_state → result A * cli_state.

Definition cret {A} (a : A) : C A := fun s => (Ok a, s).

Definition cbind {A B} (m : C A) (k : A → C B) : C B :=
  fun s =>
    match m s with
    | (Ok a, s') => k a s'
    | (Raise e, s') => (Raise e, s')
    end.

Notation "'let$' x ':=' m 'in' k" := (cbind m (fun x => k))
  (at level 10, x name, m at level 100, k at level 200).

(** A method call on [client]. *)
Definition on_client {A} (m : WeapmClient.M A) : C A :=
  fun s =>
    let (r, st) := m (client_state s) in
    (r, {| client_state := st; stdout := stdout s |}).

Definition print (l : line) : C unit :=
  fun s => (Ok tt, {| client_state := client_state s; stdout := (stdout s ++ [l])%list |}).

Definition clift {A} (r : result A) : C A := fun s => (r, s).

(** [sys.exit(code)] raises [SystemExit(code)]. *)
Definition SystemExit_ (code : Z) : exn := Exn SystemExit [Fmt (PyInt code)].

Definition sys_exit {A} (code : Z) : C A := fun s => (Raise (SystemExit_ code), s).

(** The truth value of an option that is a string or [None]. *)
Definition given (o : option string) : bool := py_truthy (from_option PyStr PyNone o).

(** [a or dflt] for such an option. *)
Definition or_default (o : option string) (dflt : string) : string :=
  if given o then default dflt o else dflt.

Section Commands.

Variable srv : server.

Definition cmd_dashboard : C unit :=
  let$ dashboard := on_client (WeapmClient.get_dashboard srv) in
  let$ result := clift (py_get dashboard "result" (PyDict ∅)) in
  print (Dump result).

Definition cmd_clusters (detail : bool) (cluster_name : option string) : C unit :=
  if detail then
    let$ _ :=
      if negb (given cluster_name) then
        let$ _ := print (Text [Lit "错误: 使用 --detail 时必须指定 --cluster-name"]) in
        sys_exit 1
      else cret tt in
    let$ result := on_client (WeapmClient.get_cluster_detail srv (default "" cluster_name)) in
    let$ inner := clift (py_get result "result" (PyDict ∅)) in
    print (Dump inner)
  else
    let$ clusters := on_client (WeapmClient.get_clusters srv) in
    print (Dump clusters).

Definition cmd_subsystems (search : bool) (subsys_id check detail : option string)
    (limit : Z) : C unit :=
  if search then
    let$ result := on_client (WeapmClient.search_subsystems srv subsys_id limit) in
    print (Dump result)
  else if given check then
    let$ result := on_client (WeapmClient.check_subsystem_exists srv (default "" check)) in
    let$ inner := clift (py_get result "result" (PyDict ∅)) in
    print (Dump inner)
  else if given detail then
    let$ result := on_client (WeapmClient.get_subsystem_detail srv (default "" detail)) in
    let$ inner := clift (py_get result "result" (PyDict ∅)) in
    print (Dump inner)
  else
    let$ result := on_client (WeapmClient.get_subsystems srv) in
    print (Dump result).

(** The five keyword arguments [cmd_add_node] always passes. *)
Definition add_node_keywords (topic bucketnames backenddomain storagedomain status
    : option string) : gmap string pyval :=
  <["topic" := from_option PyStr PyNone topic]>
    (<["bucketnames" := from_option PyStr PyNone bucketnames]>
       (<["backenddomain" := from_option PyStr PyNone backenddomain]>
          (<["storagedomain" := from_option PyStr PyNone storagedomain]>
             (<["status" := from_option PyStr PyNone status]> ∅)))).

Definition cmd_add_node (cluster_name address role : string)
    (cpulimit memlimit topic bucketnames backenddomain storagedomain status : option string)
  : C unit :=
  let$ result :=
    on_client (WeapmClient.add_cluster_node srv cluster_name address role cpulimit memlimit
                 (add_node_keywords topic bucketnames backenddomain storagedomain status)) in
  print (Dump result).

Definition cmd_delete_node (ip : string) : C unit :=
  let$ result := on_client (WeapmClient.delete_cluster_node srv ip) in
  print (Dump result).

(** The [if] / [elif] chain of [main] over [args.command]. *)
Definition dispatch (c : subcommand) : C unit :=
  match c with
  | Cmd_dashboard => cmd_dashboard
  | Cmd_clusters detail cluster_name => cmd_clusters detail cluster_name
  | Cmd_subsystems search subsys_id check detail limit =>
      cmd_subsystems search subsys_id check detail limit
  | Cmd_add_node n a r cpu mem topic bucket backend storage status =>
      cmd_add_node n a r cpu mem topic bucket backend storage status
  | Cmd_delete_node ip => cmd_delete_node ip
  end.

(** Whether [except Exception] catches the class: not [SystemExit], nor the
    other classes that derive from [BaseException] only. *)
Definition is_Exception (cls : exn_class) : bool :=
  match cls with
  | SystemExit => false
  | OtherError name =>
      negb (String.eqb name "KeyboardInterrupt" || String.eqb name "GeneratorExit")
  | _ => true
  end.

(** The [try] / [except Exception as e] around the commands. *)
Definition guarded (c : subcommand) : C unit :=
  fun s =>
    match dispatch c s with
    | (Raise e, s') =>
        if is_Exception (exn_class_of e) then
          (let$ _ := print (Text (Lit "❌ 错误: " :: exn_message e)) in sys_exit 1) s'
        else (Raise e, s')
    | ok => ok
    end.

(** The configuration block of [main]: which source is used, and the two
    handlers that turn a failure into a message and exit status 1. *)
Definition load_config (fs : WeapmConfig.filesystem) (args : Args)
  : result WeapmConfig.t * list line :=
  let attempt :=
    if (given (config args) || given (env args))%bool then
      WeapmConfig.from_yaml fs (config args) (env args)
    else if given (base_url args) then
      Ok (WeapmConfig.Make (PyStr (default "" (base_url args)))
            (PyStr (or_default (username args) "weapmUser"))
            (PyStr (or_default (password args) "Weapm@123admin"))
            (PyInt (timeout args))
            (PyInt 3) (PyFloat float_half) (PyInt 10) (PyInt 10) (PyBool true))
    else WeapmConfig.from_yaml fs None None in
  match attempt with
  | Ok cfg => (Ok cfg, [])
  | Raise e =>
      if is_FileNotFoundError (exn_class_of e) then
        (Raise (SystemExit_ 1),
         [Text (Lit "⚠️  " :: exn_message e);
          Text [Lit "请先创建配置文件 config.yaml,参考 config.yaml.example"]])
      else if is_ValueError (exn_class_of e) then
        (Raise (SystemExit_ 1), [Text (Lit "⚠️  配置错误: " :: exn_message e)])
      else (Raise e, [])
  end.

(** How a run of [main] ends: the exception that leaves it, if any, the
    client as it is left (when one was built), and what the tool itself
    printed (the line [from_yaml] prints when it loads a file is not
    recorded). *)
Record finished : Type := {
  outcome : result unit;
  client_left : option WeapmClient.state;
  printed : list line
}.

(** [main()], given the parsed arguments. *)
Definition main (fs : WeapmConfig.filesystem) (args : Args) : finished :=
  match command args with
  | None =>
      {| outcome := Raise (SystemExit_ 1);
         client_left := None;
         printed := [Text [Lit "请指定命令。使用 --help 查看帮助信息。"]] |}
  | Some c =>
      match load_config fs args with
      | (Raise e, out) => {| outcome := Raise e; client_left := None; printed := out |}
      | (Ok cfg, out) =>
          match WeapmClient.__init__ cfg with
          | Raise e => {| outcome := Raise e; client_left := None; printed := out |}
          | Ok client =>
              let s0 := {| client_state := {| WeapmClient.self := client;
                                              WeapmClient.sent := [] |};
                           stdout := out |} in
              match guarded c s0 with
              | (Raise e, s1) =>
                  match WeapmClient.__exit__ (Some (exn_class_of e)) (Some e) (Some [])
                          (client_state s1) with
                  | (Ok r, st2) =>
                      {| outcome := if py_truthy r then Ok tt else Raise e;
                         client_left := Some st2; printed := stdout s1 |}
                  | (Raise e', st2) =>
                      {| outcome := Raise e'; client_left := Some st2; printed := stdout s1 |}
                  end
              | (Ok _, s1) =>
                  match WeapmClient.__exit__ None None None (client_state s1) with
                  | (Ok _, st2) =>
                      {| outcome := Ok tt; client_left := Some st2; printed := stdout s1 |}
                  | (Raise e', st2) =>
                      {| outcome := Raise e'; client_left := Some st2; printed := stdout s1 |}
                  end
              end
          end
      end
  end.

End Commands.

End WeapmCli.

(** Arguments with only [--base-url] and a sub-command given. *)
Definition args_with_url (url : string) (c : option WeapmCli.subcommand) : WeapmCli.Args :=
  {| WeapmCli.config := None; WeapmCli.env := None; WeapmCli.base_url := Some url;
     WeapmCli.username := None; WeapmCli.password := None; WeapmCli.timeout := 30;
     WeapmCli.quiet := false; WeapmCli.output := "pretty"; WeapmCli.command := c |}.

(** Arguments with only [--config] and a sub-command given. *)
Definition args_with_config (path : string) (c : option WeapmCli.subcommand)
  : WeapmCli.Args :=
  {| WeapmCli.config := Some path; WeapmCli.env := None; WeapmCli.base_url := None;
     WeapmCli.username := None; WeapmCli.password := None; WeapmCli.timeout := 30;
     WeapmCli.quiet := false; WeapmCli.output := "pretty"; WeapmCli.command := c |}.

(** ** The weekly report helper: [get_weekly_files.py] *)

Module WeeklyFiles.

(** A [datetime]: the day as [toordinal()] gives it, and the time of day in
    microseconds since midnight. Days far enough from [datetime.min] and
    [datetime.max] that the week around them exists. *)
Record datetime : Type := {
  ordinal : Z;
  micros : Z
}.

(** [d.weekday()]: Monday is 0; ordinal 1 is a Monday. *)
Definition weekday (d : datetime) : Z := (ordinal d + 6) mod 7.

(** [d + timedelta(days=n)]. *)
Definition add_days (d : datetime) (n : Z) : datetime :=
  {| ordinal := ordinal d + n; micros := micros d |}.

(** [a <= b] on datetimes. *)
Definition datetime_le (a b : datetime) : bool :=
  (ordinal a <? ordinal b) || ((ordinal a =? ordinal b) && (micros a <=? micros b)).

(** One path found by [glob]: what [os.path.isdir] says of it, and what
    [datetime.strptime(basename, '%Y%m%d')] gives for its name, as the
    ordinal of the day ([None]: [ValueError]). *)
Record entry : Type := {
  file_path : string;
  is_dir : bool;
  name_date : option Z
}.

(** The body of the loop: whether the path is appended. *)
Definition in_week (today : datetime) (e : entry) : bool :=
  let monday := add_days today (- weekday today) in
  let sunday := add_days monday 6 in
  if is_dir e then false
  else match name_date e with
       | Some d =>
           let file_date := {| ordinal := d; micros := 0 |} in
           datetime_le monday file_date && datetime_le file_date sunday
       | None => false
       end.

(** The order of [list.sort()] on strings. *)
Definition path_le (a b : string) : Prop := String.leb a b = true.

#[global] Instance path_le_dec : RelDecision path_le :=
  fun a b => decide (String.leb a b = true).

(** [get_current_week_files], given [datetime.now()] and the paths found. *)
Definition get_current_week_files (today : datetime) (all_files : list entry)
  : list string :=
  let weekly_files := file_path <$> filter (fun e => in_week today e = true) all_files in
  merge_sort path_le weekly_files.

End WeeklyFiles.

(** Sample listing: a directory, a note, and files dated 2024-11-11 (a
    Monday, ordinal 739201), 2024-11-12 and 2024-11-25. *)
Definition sample_listing : list WeeklyFiles.entry :=
  [ {| WeeklyFiles.file_path := "daily/20241125"; WeeklyFiles.is_dir := false;
       WeeklyFiles.name_date := Some 739215 |};
    {| WeeklyFiles.file_path := "daily/archive"; WeeklyFiles.is_dir := true;
       WeeklyFiles.name_date := None |};
    {| WeeklyFiles.file_path := "daily/20241112"; WeeklyFiles.is_dir := false;
       WeeklyFiles.name_date := Some 739202 |};
    {| WeeklyFiles.file_path := "daily/notes.txt"; WeeklyFiles.is_dir := false;
       WeeklyFiles.name_date := None |};
    {| WeeklyFiles.file_path := "daily/20241111"; WeeklyFiles.is_dir := false;
       WeeklyFiles.name_date := Some 739201 |} ].

(** * Properties *)

Import WeapmClient.

(** ** Stripping and joining *)

Lemma all_slashes_trailing (s : string) :
  all_slashes s = true → trailing_slashes s = String.length s.
Proof.
  induction s as [|c s IH]; [done|].
  cbn [all_slashes trailing_slashes String.length].
  intros H. by rewrite H.
Qed.

Lemma trailing_zero_not_all (c : ascii) (s : string) :
  trailing_slashes (String c s) = O → all_slashes (String c s) = false.
Proof.
  intros H. destruct (all_slashes (String c s)) eqn:E; [|done].
  apply all_slashes_trailing in E. rewrite H in E. discriminate.
Qed.

Lemma str_mem_slash (c : ascii) : str_mem c "/" = Ascii.eqb c "/".
Proof. cbn. by destruct (Ascii.eqb c "/"). Qed.

(** The stripped string never ends in a slash. *)
Lemma rstrip_trailing (s : string) : trailing_slashes (rstrip "/" s) = O.
Proof.
  induction s as [|c s IH]; [done|].
  cbn [rstrip]. destruct (rstrip "/" s) as [|c' r] eqn:E.
  - rewrite str_mem_slash. destruct (Ascii.eqb c "/") eqn:Ec; [done|].
    cbn [trailing_slashes]. by rewrite Ec.
  - cbn [trailing_slashes]. fold (trailing_slashes (String c' r)).
    rewrite (trailing_zero_not_all _ _ IH), andb_false_r. exact IH.
Qed.

(** Only slashes are dropped, and only from the end. *)
Lemma rstrip_decompose (s : string) :
  ∃ dropped, s = rstrip "/" s +:+ dropped ∧ all_slashes dropped = true.
Proof.
  induction s as [|c s (dropped & Hs & Hd)]; [by exists ""|].
  cbn [rstrip]. destruct (rstrip "/" s) as [|c' r] eqn:E.
  - rewrite str_mem_slash. change (s = dropped) in Hs. subst dropped.
    destruct (Ascii.eqb c "/") eqn:Ec.
    + exists (String c s). split; [reflexivity|].
      cbn [all_slashes]. by rewrite Ec, Hd.
    + exists s. split; [reflexivity|done].
  - exists dropped. split; [|done].
    change (String c s = String c (String c' r +:+ dropped)). by rewrite <- Hs.
Qed.

Lemma junction_after_rstrip (b endpoint : string) :
  slashes_at_junction (rstrip "/" b) endpoint = leading_slashes endpoint.
Proof. unfold slashes_at_junction. by rewrite rstrip_trailing. Qed.

(** ** What a call sends *)

Lemma init_base_url (cfg : WeapmConfig.t) (b : string) (c : t) :
  WeapmConfig.base_url cfg = PyStr b → __init__ cfg = Ok c →
  base_url c = rstrip "/" b ∧ config c = cfg ∧ timeout c = WeapmConfig.timeout cfg.
Proof.
  unfold __init__, init_under. intros ->. intros [= <-]. done.
Qed.

Lemma request_state (srv : server) (method endpoint : string)
    (kwargs : gmap string pyval) (st : state) :
  snd (_request srv method endpoint kwargs st)
  = {| self := self st;
       sent := (sent st ++ [prepare (self st) method endpoint kwargs])%list |}.
Proof. reflexivity. Qed.

Lemma mbind_lift_state {A B} (m : M A) (f : A → result B) (st : state) :
  snd (mbind m (fun a => lift (f a)) st) = snd (m st).
Proof. unfold mbind, lift. by destruct (m st) as [[a|e] st']. Qed.

Lemma returning_state (m : M pyval) (st : state) :
  snd (returning m st) = snd (m st).
Proof. unfold returning, mbind, mret. by destruct (m st) as [[a|e] st']. Qed.

(** Each typed operation leaves the session log alone or adds one request
    whose endpoint starts with exactly one slash. *)
Lemma typed_operation_endpoint (srv : server) (c : call) (st : state) :
  typed_operation c = true →
  sent (snd (run srv c st)) = sent st
  ∨ ∃ (method endpoint : string) (kwargs : gmap string pyval),
      sent (snd (run srv c st))
      = (sent st ++ [prepare (self st) method endpoint kwargs])%list
      ∧ leading_slashes endpoint = 1%nat.
Proof.
  destruct c; intros Hc; try discriminate Hc; cbn [run];
    try (left; reflexivity);
    rewrite ?returning_state;
    unfold get_clusters, get_cluster_subsystems, get_subsystems, search_subsystems,
      get_dashboard, get_cluster_detail, add_cluster_node, delete_cluster_node,
      check_subsystem_exists, add_subsystem, adjust_subsystem_cluster,
      adjust_subsystem_status, enable_subsystem, get_subsystem_detail;
    rewrite ?mbind_lift_state, ?request_state; cbn [snd sent];
    try (right; do 3 eexists; split; [reflexivity|reflexivity]).
  all: left; unfold mbind, mret, close, __enter__, __exit__; reflexivity.
Qed.

(** ** C3: the request URL *)

(** C3, as the claim words it, fails: [_request] joins the stripped base URL
    and the path as they are, so a path with no leading slash leaves the
    junction without one. *)
Lemma request_url_junction_counterexample :
  req_url <$> sent (snd (_request (answering 200 PyNone) "GET" "operation/dashboard" ∅
                           (sample_state "http://host:8080/")))
  = ["http://host:8080operation/dashboard"]
  ∧ slashes_at_junction (rstrip "/" "http://host:8080/") "operation/dashboard" ≠ 1%nat.
Proof. split; [reflexivity | discriminate]. Qed.

(** C3 (amended): for a client built from a configuration whose [base_url]
    is the string [b], the URL of every request is [b] without its trailing
    slashes followed by the path; the junction holds exactly as many slashes
    as the path starts with, and every typed operation of the client sends a
    path that starts with exactly one. *)
Theorem request_url_junction (srv : server) (cfg : WeapmConfig.t) (b : string)
    (c : t) (st : state) (method endpoint : string) (kwargs : gmap string pyval) :
  WeapmConfig.base_url cfg = PyStr b →
  __init__ cfg = Ok c →
  self st = c →
  (∃ rq : request,
      sent (snd (_request srv method endpoint kwargs st)) = (sent st ++ [rq])%list
      ∧ req_url rq = rstrip "/" b +:+ endpoint)
  ∧ slashes_at_junction (rstrip "/" b) endpoint = leading_slashes endpoint
  ∧ (∀ op : call, typed_operation op = true →
       sent (snd (run srv op st)) = sent st
       ∨ ∃ (rq : request) (path : string),
           sent (snd (run srv op st)) = (sent st ++ [rq])%list
           ∧ req_url rq = rstrip "/" b +:+ path
           ∧ slashes_at_junction (rstrip "/" b) path = 1%nat).
Proof.
  intros Hb Hinit Hself.
  destruct (init_base_url _ _ _ Hb Hinit) as (Hbase & _ & _).
  split; [|split].
  - eexists. rewrite request_state. cbn [sent]. split; [reflexivity|].
    unfold prepare. cbn [req_url]. by rewrite Hself, Hbase.
  - apply junction_after_rstrip.
  - intros op Hop.
    destruct (typed_operation_endpoint srv op st Hop) as [Hsame|(m & path & kw & Hsent & Hlead)].
    + by left.
    + right. exists (prepare (self st) m path kw), path.
      split; [exact Hsent|]. split.
      * unfold prepare. cbn [req_url]. by rewrite Hself, Hbase.
      * by rewrite junction_after_rstrip.
Qed.

Lemma request_url_junction_witness :
  (∃ rq : request,
      sent (snd (_request (answering 200 PyNone) "GET" "/operation/dashboard" ∅
                   (sample_state "http://host:8080/"))) = [rq]
      ∧ req_url rq = "http://host:8080/operation/dashboard")
  ∧ slashes_at_junction "http://host:8080" "/operation/dashboard" = 1%nat.
Proof.
  destruct (request_url_junction (answering 200 PyNone) (sample_config "http://host:8080/")
              "http://host:8080/" (sample_client "http://host:8080/")
              (sample_state "http://host:8080/") "GET" "/operation/dashboard" ∅
              eq_refl eq_refl eq_refl) as (H1 & H2 & _).
  split; [exact H1 | exact H2].
Defined.

(** ** C1, C2: the business check of [_request] *)

Lemma except_clauses_id {A} (r : result A) : except_clauses r = r.
Proof. destruct r as [a|[cls msg]]; [done|]. by destruct cls. Qed.

Lemma raise_for_status_pass (url : string) (r : Response) :
  status_code r < 400 ∨ 600 ≤ status_code r → raise_for_status url r = Ok tt.
Proof.
  intros H. unfold raise_for_status.
  destruct (400 <=? status_code r) eqn:E1; [|done].
  destruct (status_code r <? 600) eqn:E2; [|done]. lia.
Qed.

(** Once the session gives a response that passes [raise_for_status] and
    decodes, the outcome of [_request] is that of the check on the body. *)
Lemma request_decoded (srv : server) (st : state) (method endpoint : string)
    (kwargs : gmap string pyval) (resp : Response) (data : pyval) :
  srv (session (self st)) (sent st) (prepare (self st) method endpoint kwargs) = Ok resp →
  status_code resp < 400 ∨ 600 ≤ status_code resp →
  json resp = Some data →
  fst (_request srv method endpoint kwargs st) = check_code data.
Proof.
  intros Hsrv Hstatus Hjson. unfold _request. cbn [fst].
  rewrite except_clauses_id, Hsrv. cbn [result_bind].
  rewrite (raise_for_status_pass _ _ Hstatus). cbn [result_bind].
  by rewrite Hjson.
Qed.

(** The whole table of [data['code'] != 0] on a decoded mapping. *)
Lemma check_code_table (d : gmap string pyval) (code : pyval) :
  d !! "code" = Some code →
  check_code (PyDict d)
  = match code with
    | PyInt 0 | PyBool false | PyFloat (S754_zero _) => Ok (PyDict d)
    | _ => Raise (Exn HTTPError [Lit "API 错误 (code "; Fmt code; Lit "): ";
                                 Fmt (default (PyStr "未知错误") (d !! "message"))])
    end.
Proof.
  intros H. unfold check_code. rewrite H.
  destruct code as [|[]|[]|[]| | |]; reflexivity.
Qed.

(** C1: when the response decodes to a mapping with an integer [code], the
    call returns the mapping if the code is 0 and otherwise raises the
    business error (an [HTTPError] built from the code and the message),
    whatever status let the response through [raise_for_status], 2xx
    included. *)
Theorem request_application_code (srv : server) (st : state) (method endpoint : string)
    (kwargs : gmap string pyval) (resp : Response) (d : gmap string pyval) (n : Z) :
  srv (session (self st)) (sent st) (prepare (self st) method endpoint kwargs) = Ok resp →
  status_code resp < 400 ∨ 600 ≤ status_code resp →
  json resp = Some (PyDict d) →
  d !! "code" = Some (PyInt n) →
  fst (_request srv method endpoint kwargs st)
  = if decide (n = 0) then Ok (PyDict d)
    else Raise (Exn HTTPError [Lit "API 错误 (code "; Fmt (PyInt n); Lit "): ";
                               Fmt (default (PyStr "未知错误") (d !! "message"))]).
Proof.
  intros Hsrv Hstatus Hjson Hcode.
  rewrite (request_decoded _ _ _ _ _ _ _ Hsrv Hstatus Hjson).
  rewrite (check_code_table _ _ Hcode).
  destruct (decide (n = 0)) as [->|Hn]; [done|]. by destruct n.
Qed.

Lemma request_application_code_witness :
  fst (_request (answering 200 (PyDict body_code7)) "GET" "/operation/dashboard" ∅
         (sample_state "http://host:8080/"))
  = Raise (Exn HTTPError [Lit "API 错误 (code "; Fmt (PyInt 7); Lit "): "; Fmt (PyStr "m")])
  ∧ fst (_request (answering 200 (PyDict body_code0)) "GET" "/operation/dashboard" ∅
           (sample_state "http://host:8080/"))
    = Ok (PyDict body_code0).
Proof.
  split.
  - exact (request_application_code (answering 200 (PyDict body_code7))
             (sample_state "http://host:8080/") "GET" "/operation/dashboard" ∅
             {| status_code := 200; text := ""; json := Some (PyDict body_code7) |}
             body_code7 7 eq_refl (or_introl eq_refl) eq_refl eq_refl).
  - exact (request_application_code (answering 200 (PyDict body_code0))
             (sample_state "http://host:8080/") "GET" "/operation/dashboard" ∅
             {| status_code := 200; text := ""; json := Some (PyDict body_code0) |}
             body_code0 0 eq_refl (or_introl eq_refl) eq_refl eq_refl).
Defined.

(** The text of the business error for [{code: 7, message: "m"}]. *)
Example application_error_text :
  render [Lit "API 错误 (code "; Fmt (PyInt 7); Lit "): "; Fmt (PyStr "m")]
  = Some "API 错误 (code 7): m".
Proof. reflexivity. Qed.

(** C2: a 2xx response whose decoded body is not a mapping is returned as it
    is; the [code] check does not look at it, so no business error is
    raised. *)
Theorem request_non_mapping_body (srv : server) (st : state) (method endpoint : string)
    (kwargs : gmap string pyval) (resp : Response) (data : pyval) :
  srv (session (self st)) (sent st) (prepare (self st) method endpoint kwargs) = Ok resp →
  200 ≤ status_code resp < 300 →
  json resp = Some data →
  (∀ d : gmap string pyval, data ≠ PyDict d) →
  fst (_request srv method endpoint kwargs st) = Ok data
  ∧ check_code data = Ok data.
Proof.
  intros Hsrv Hstatus Hjson Hshape.
  assert (Hcheck : check_code data = Ok data).
  { destruct data; try reflexivity. by destruct (Hshape d). }
  split; [|exact Hcheck].
  assert (Hpass : status_code resp < 400 ∨ 600 ≤ status_code resp) by lia.
  rewrite (request_decoded _ _ _ _ _ _ _ Hsrv Hpass Hjson).
  exact Hcheck.
Qed.

Lemma request_non_mapping_body_witness :
  fst (_request (answering 200 (PyList [PyDict body_code7])) "GET" "/operation/clusters" ∅
         (sample_state "http://host:8080/"))
  = Ok (PyList [PyDict body_code7]).
Proof.
  refine (proj1 (request_non_mapping_body (answering 200 (PyList [PyDict body_code7]))
             (sample_state "http://host:8080/") "GET" "/operation/clusters" ∅
             {| status_code := 200; text := "";
                json := Some (PyList [PyDict body_code7]) |}
             (PyList [PyDict body_code7]) eq_refl _ eq_refl _)).
  - split; [discriminate | reflexivity].
  - intros d; discriminate.
Defined.

(** ** C5: the list-style operations *)

Lemma returning_ok (m : M pyval) (st : state) (v : pyval) :
  fst (m st) = Ok v → fst (returning m st) = Ok (Value v).
Proof.
  unfold returning, mbind, mret. destruct (m st) as [[a|e] st']; cbn; congruence.
Qed.

Lemma unwrap_result (srv : server) (st : state) (method endpoint : string)
    (kwargs : gmap string pyval) (resp : Response) (d : gmap string pyval) :
  srv (session (self st)) (sent st) (prepare (self st) method endpoint kwargs) = Ok resp →
  status_code resp < 400 ∨ 600 ≤ status_code resp →
  json resp = Some (PyDict d) →
  d !! "code" = Some (PyInt 0) →
  fst (mbind (_request srv method endpoint kwargs)
         (fun response => lift (py_get response "result" (PyList []))) st)
  = Ok (default (PyList []) (d !! "result")).
Proof.
  intros Hsrv Hstatus Hjson Hcode.
  pose proof (request_decoded _ _ _ _ _ _ _ Hsrv Hstatus Hjson) as Hreq.
  rewrite (check_code_table _ _ Hcode) in Hreq.
  unfold mbind. destruct (_request srv method endpoint kwargs st) as [r st'].
  cbn [fst] in Hreq. subst r. reflexivity.
Qed.

Lemma last_sent_request (srv : server) (st : state) (method endpoint : string)
    (kwargs : gmap string pyval) (k : pyval → M pyval) (rq : request) :
  (∀ v st', snd (k v st') = st') →
  last (sent (snd (mbind (_request srv method endpoint kwargs) k st))) = Some rq →
  rq = prepare (self st) method endpoint kwargs.
Proof.
  intros Hk. unfold mbind.
  pose proof (request_state srv method endpoint kwargs st) as Hst.
  destruct (_request srv method endpoint kwargs st) as [[v|e] st']; cbn [snd] in *.
  - rewrite Hk, Hst. cbn [sent]. rewrite last_snoc. congruence.
  - rewrite Hst. cbn [sent]. rewrite last_snoc. congruence.
Qed.

(** C5: for [get_clusters], [get_subsystems], [get_cluster_subsystems] and
    [search_subsystems], when the request the call sent is answered by a
    response that decodes to a mapping with [code] 0, the call returns
    exactly the value under [result], and the empty list when the mapping has
    no [result] key. *)
Theorem list_style_unwraps_result (srv : server) (st : state) (op : call)
    (rq : request) (resp : Response) (d : gmap string pyval) :
  list_style op = true →
  last (sent (snd (run srv op st))) = Some rq →
  srv (session (self st)) (sent st) rq = Ok resp →
  status_code resp < 400 ∨ 600 ≤ status_code resp →
  json resp = Some (PyDict d) →
  d !! "code" = Some (PyInt 0) →
  (∀ L : pyval, d !! "result" = Some L → fst (run srv op st) = Ok (Value L))
  ∧ (d !! "result" = None → fst (run srv op st) = Ok (Value (PyList []))).
Proof.
  intros Hop Hlast Hsrv Hstatus Hjson Hcode.
  assert (Hrun : fst (run srv op st) = Ok (Value (default (PyList []) (d !! "result")))).
  { destruct op; try discriminate Hop; cbn [run] in *;
      rewrite returning_state in Hlast;
      apply returning_ok;
      unfold get_clusters, get_cluster_subsystems, get_subsystems, search_subsystems in *;
      (apply last_sent_request in Hlast; [|reflexivity]); subst rq;
      by apply (unwrap_result _ _ _ _ _ resp). }
  split.
  - intros L HL. by rewrite Hrun, HL.
  - intros HN. by rewrite Hrun, HN.
Qed.

Lemma list_style_unwraps_result_witness :
  fst (run (answering 200 (PyDict body_clusters)) Call_get_clusters
         (sample_state "http://host:8080/"))
  = Ok (Value (PyList [PyDict (dict_of [("clustername", PyStr "a")])]))
  ∧ fst (run (answering 200 (PyDict body_code0)) Call_get_clusters
           (sample_state "http://host:8080/"))
    = Ok (Value (PyList [])).
Proof.
  split.
  - refine (proj1 (list_style_unwraps_result (answering 200 (PyDict body_clusters))
             (sample_state "http://host:8080/") Call_get_clusters
             (prepare (sample_client "http://host:8080/") "GET" "/operation/clusters" ∅)
             {| status_code := 200; text := ""; json := Some (PyDict body_clusters) |}
             body_clusters eq_refl eq_refl eq_refl (or_introl eq_refl) eq_refl eq_refl)
             _ eq_refl).
  - refine (proj2 (list_style_unwraps_result (answering 200 (PyDict body_code0))
             (sample_state "http://host:8080/") Call_get_clusters
             (prepare (sample_client "http://host:8080/") "GET" "/operation/clusters" ∅)
             {| status_code := 200; text := ""; json := Some (PyDict body_code0) |}
             body_code0 eq_refl eq_refl eq_refl (or_introl eq_refl) eq_refl eq_refl)
             eq_refl).
Defined.

(** ** C4: the body of [add_cluster_node] *)

Lemma base_data_lookup (cluster_name address role k : string) :
  add_cluster_node_data cluster_name address role None None ∅ !! k
  = if decide (k = "address") then Some (PyStr address)
    else if decide (k = "clustername") then Some (PyStr cluster_name)
    else if decide (k = "role") then Some (PyStr role)
    else None.
Proof.
  unfold add_cluster_node_data. rewrite (left_id_L ∅ (∪)).
  repeat case_decide; simplify_map_eq; done.
Qed.

(** C4: [add_cluster_node] posts the dictionary [data] as the JSON body.
    With no optional argument [data] has exactly the keys [address],
    [clustername] and [role], bound to the arguments. In general every
    keyword argument is in [data] with its value; a key that is no keyword
    argument is bound as follows: [cpulimit] and [memlimit] to the argument
    of that name when it is not [None] (else they are absent), and any other
    key as in the three-key dictionary. *)
Theorem add_cluster_node_body (srv : server) (st : state)
    (cluster_name address role : string) (cpulimit memlimit : option string)
    (kwargs : gmap string pyval) :
  let data := add_cluster_node_data cluster_name address role cpulimit memlimit kwargs in
  let required := add_cluster_node_data cluster_name address role None None ∅ in
  (∃ rq : request,
      sent (snd (add_cluster_node srv cluster_name address role cpulimit memlimit kwargs st))
      = (sent st ++ [rq])%list
      ∧ req_method rq = "POST"
      ∧ req_kwargs rq !! "json" = Some (PyDict data))
  ∧ required = <["address" := PyStr address]>
                 (<["clustername" := PyStr cluster_name]> {["role" := PyStr role]})
  ∧ dom required = {["address"; "clustername"; "role"]}
  ∧ dom required ⊆ dom data
  ∧ (∀ (k : string) (v : pyval), kwargs !! k = Some v → data !! k = Some v)
  ∧ (∀ k : string, kwargs !! k = None →
       data !! k = if decide (k = "cpulimit") then PyStr <$> cpulimit
                   else if decide (k = "memlimit") then PyStr <$> memlimit
                   else required !! k).
Proof.
  intros data required.
  assert (Hreq : required = <["address" := PyStr address]>
                   (<["clustername" := PyStr cluster_name]> {["role" := PyStr role]})).
  { subst required. unfold add_cluster_node_data. by rewrite (left_id_L ∅ (∪)). }
  assert (Hrest : ∀ k : string, kwargs !! k = None →
       data !! k = if decide (k = "cpulimit") then PyStr <$> cpulimit
                   else if decide (k = "memlimit") then PyStr <$> memlimit
                   else required !! k).
  { intros k Hk. subst data. unfold add_cluster_node_data.
    rewrite (lookup_union_r _ _ _ Hk), Hreq.
    destruct cpulimit, memlimit; repeat case_decide; simplify_map_eq; done. }
  split; [|split; [exact Hreq|split; [|split; [|split; [|exact Hrest]]]]].
  - unfold add_cluster_node. rewrite request_state. cbn [sent].
    eexists. split; [reflexivity|]. split; [reflexivity|].
    unfold prepare, setdefault. cbn [req_kwargs]. by simplify_map_eq.
  - rewrite Hreq. rewrite !dom_insert_L, dom_singleton_L. set_solver.
  - intros k Hk. apply elem_of_dom in Hk. apply elem_of_dom.
    destruct (kwargs !! k) as [v|] eqn:Ekw.
    + exists v. subst data. unfold add_cluster_node_data. by apply lookup_union_Some_l.
    + rewrite (Hrest k Ekw). destruct Hk as [x Hx].
      rewrite Hreq in Hx |- *.
      repeat case_decide; simplify_map_eq; eauto.
  - intros k v Hk. subst data. unfold add_cluster_node_data. by apply lookup_union_Some_l.
Qed.

Lemma add_cluster_node_body_witness :
  add_cluster_node_data "LOG008" "127.0.0.2" "write" None None
    (dict_of [("topic", PyStr "t"); ("status", PyStr "active")]) !! "topic"
  = Some (PyStr "t")
  ∧ add_cluster_node_data "LOG008" "127.0.0.2" "write" None None
      (dict_of [("topic", PyStr "t"); ("status", PyStr "active")]) !! "cpulimit"
    = None.
Proof.
  destruct (add_cluster_node_body (answering 200 PyNone) (sample_state "http://host:8080/")
              "LOG008" "127.0.0.2" "write" None None
              (dict_of [("topic", PyStr "t"); ("status", PyStr "active")]))
    as (_ & _ & _ & _ & Hkw & Hrest).
  split.
  - exact (Hkw "topic" (PyStr "t") eq_refl).
  - exact (Hrest "cpulimit" eq_refl).
Defined.

(** The two bodies of the specification's examples. *)
Example add_cluster_node_minimal :
  add_cluster_node_data "LOG008" "127.0.0.2" "write" None None ∅
  = dict_of [("address", PyStr "127.0.0.2"); ("clustername", PyStr "LOG008");
             ("role", PyStr "write")].
Proof. vm_compute. reflexivity. Qed.

Example add_cluster_node_with_keywords :
  add_cluster_node_data "LOG008" "127.0.0.2" "write" None None
    (dict_of [("topic", PyStr "t"); ("status", PyStr "active")])
  = dict_of [("address", PyStr "127.0.0.2"); ("clustername", PyStr "LOG008");
             ("role", PyStr "write"); ("topic", PyStr "t"); ("status", PyStr "active")].
Proof. vm_compute. reflexivity. Qed.

(** ** C6, C9: resolving the configuration *)


(** [from_yaml] once the document is a mapping and the environment name is
    the string [e]. *)
Lemma from_yaml_selected (fs : WeapmConfig.filesystem) (config_path env : option string)
    (doc : gmap string pyval) (e : string) :
  WeapmConfig.load fs (default (WeapmConfig.script_dir fs +:+ "/config.yaml") config_path)
  = Some (Ok (PyDict doc)) →
  env = Some e ∨ (env = None ∧ default (PyStr "dev") (doc !! "active_env") = PyStr e) →
  WeapmConfig.from_yaml fs config_path env
  = match doc !! e with
    | None =>
        Raise (Exn ValueError [Lit "环境配置不存在: "; Fmt (PyStr e); Lit ", 可用环境: ";
                               FmtKeys (dom doc)])
    | Some env_config =>
        let* has_base_url := py_contains_str "base_url" env_config in
        if negb has_base_url then
          Raise (Exn ValueError [Lit "环境 "; Fmt (PyStr e); Lit " 缺少必要字段: base_url"])
        else
          let* description := py_get env_config "description" (PyStr e) in
          WeapmConfig.from_dict env_config
    end.
Proof.
  intros Hload Henv. unfold WeapmConfig.from_yaml. rewrite Hload.
  cbn [result_bind].
  assert (Hsel : match env with
                 | None => py_get (PyDict doc) "active_env" (PyStr "dev")
                 | Some e0 => Ok (PyStr e0)
                 end = Ok (PyStr e)).
  { destruct Henv as [->|[-> Hd]]; [done|]. cbn. by rewrite Hd. }
  rewrite Hsel. cbn [result_bind py_contains_str py_getitem_str].
  destruct (doc !! e) as [env_config|] eqn:Edoc.
  - rewrite bool_decide_eq_true_2 by eauto. reflexivity.
  - rewrite bool_decide_eq_false_2 by (intros [x Hx]; discriminate). reflexivity.
Qed.

(** The failures [from_yaml] reports as documented: [FileNotFoundError] (the
    specification's ConfigNotFound) when nothing exists at the resolved path;
    on a document that is a mapping, [ValueError] (InvalidEnvironment) when
    the selected environment name, given or taken from the document, is not
    a key of the document, and when the selected block is a mapping without
    [base_url]. *)
Theorem from_yaml_failures (fs : WeapmConfig.filesystem) (config_path env : option string)
    (path : string) :
  path = default (WeapmConfig.script_dir fs +:+ "/config.yaml") config_path →
  (WeapmConfig.load fs path = None →
   WeapmConfig.from_yaml fs config_path env
   = Raise (Exn FileNotFoundError [Lit "配置文件不存在: "; Fmt (PyStr path)]))
  ∧ (∀ (doc : gmap string pyval) (e : string),
       WeapmConfig.load fs path = Some (Ok (PyDict doc)) →
       env = Some e ∨ (env = None ∧ default (PyStr "dev") (doc !! "active_env") = PyStr e) →
       (doc !! e = None →
        WeapmConfig.from_yaml fs config_path env
        = Raise (Exn ValueError [Lit "环境配置不存在: "; Fmt (PyStr e); Lit ", 可用环境: ";
                                 FmtKeys (dom doc)]))
       ∧ (∀ block : gmap string pyval,
            doc !! e = Some (PyDict block) → block !! "base_url" = None →
            WeapmConfig.from_yaml fs config_path env
            = Raise (Exn ValueError
                       [Lit "环境 "; Fmt (PyStr e); Lit " 缺少必要字段: base_url"]))).
Proof.
  intros ->. split.
  - intros Hload. unfold WeapmConfig.from_yaml. by rewrite Hload.
  - intros doc e Hload Henv.
    rewrite (from_yaml_selected fs config_path env doc e Hload Henv). split.
    + by intros ->.
    + intros block -> Hbase. cbn [py_contains_str result_bind].
      rewrite bool_decide_eq_false_2; [done|].
      rewrite Hbase. intros [x Hx]. discriminate.
Qed.

Lemma from_yaml_failures_witness :
  WeapmConfig.from_yaml (one_file (PyDict doc_prod_only)) (Some "missing.yaml") None
  = Raise (Exn FileNotFoundError [Lit "配置文件不存在: "; Fmt (PyStr "missing.yaml")])
  ∧ WeapmConfig.from_yaml (one_file (PyDict doc_prod_only)) (Some "config.yaml") (Some "dev")
    = Raise (Exn ValueError [Lit "环境配置不存在: "; Fmt (PyStr "dev"); Lit ", 可用环境: ";
                             FmtKeys (dom doc_prod_only)])
  ∧ WeapmConfig.from_yaml (one_file (PyDict doc_prod_only)) (Some "config.yaml") None
    = Raise (Exn ValueError [Lit "环境 "; Fmt (PyStr "prod"); Lit " 缺少必要字段: base_url"]).
Proof.
  split; [|split].
  - exact (proj1 (from_yaml_failures (one_file (PyDict doc_prod_only)) (Some "missing.yaml")
                    None "missing.yaml" eq_refl) eq_refl).
  - exact (proj1 (proj2 (from_yaml_failures (one_file (PyDict doc_prod_only))
                           (Some "config.yaml") (Some "dev") "config.yaml" eq_refl)
                    doc_prod_only "dev" eq_refl (or_introl eq_refl)) eq_refl).
  - exact (proj2 (proj2 (from_yaml_failures (one_file (PyDict doc_prod_only))
                           (Some "config.yaml") None "config.yaml" eq_refl)
                    doc_prod_only "prod" eq_refl (or_intror (conj eq_refl eq_refl)))
             (dict_of [("username", PyStr "u")]) eq_refl eq_refl).
Defined.

(** A selected block that is no container (a null, a number, a boolean)
    does not reach the [raise ValueError] of line 102: the membership test
    of line 101 raises [TypeError] on it. *)
Lemma from_yaml_scalar_block (fs : WeapmConfig.filesystem) (config_path env : option string)
    (doc : gmap string pyval) (e : string) (block : pyval) :
  WeapmConfig.load fs (default (WeapmConfig.script_dir fs +:+ "/config.yaml") config_path)
  = Some (Ok (PyDict doc)) →
  env = Some e ∨ (env = None ∧ default (PyStr "dev") (doc !! "active_env") = PyStr e) →
  doc !! e = Some block →
  match block with
  | PyNone | PyBool _ | PyInt _ | PyFloat _ => True
  | _ => False
  end →
  ∃ msg : list fragment,
    WeapmConfig.from_yaml fs config_path env = Raise (Exn TypeError msg).
Proof.
  intros Hload Henv Hdoc Hblock.
  rewrite (from_yaml_selected fs config_path env doc e Hload Henv), Hdoc.
  destruct block; try done; eexists; reflexivity.
Qed.

(** C6 (the code does not do what the claim and its own docstring say): an
    environment block that lacks [base_url] because it is empty (YAML [dev:]
    with nothing after it loads as [None]) makes [from_yaml] raise
    [TypeError] from the membership test of line 101, where the claim, and
    the docstring's [ValueError] for a malformed environment, have
    InvalidEnvironment. *)
Theorem from_yaml_null_block :
  ∃ msg : list fragment,
    WeapmConfig.from_yaml (one_file (PyDict (dict_of [("dev", PyNone)])))
      (Some "config.yaml") (Some "dev")
    = Raise (Exn TypeError msg)
    ∧ is_ValueError TypeError = false.
Proof. eexists. split; reflexivity. Qed.




(** ** C7: the configuration held by the client *)

Lemma run_keeps_config (srv : server) (c : call) (st : state) :
  config (self (snd (run srv c st))) = config (self st).
Proof.
  destruct c; cbn [run];
    try (rewrite returning_state;
         unfold get_clusters, get_cluster_subsystems, get_subsystems, search_subsystems,
           get_dashboard, get_cluster_detail, add_cluster_node, delete_cluster_node,
           check_subsystem_exists, add_subsystem, adjust_subsystem_cluster,
           adjust_subsystem_status, enable_subsystem, get_subsystem_detail;
         rewrite ?mbind_lift_state, ?request_state; reflexivity).
  all: reflexivity.
Qed.

Lemma run_all_keeps_config (srv : server) (cs : list call) (st : state) :
  config (self (run_all srv cs st)) = config (self st).
Proof.
  revert st. induction cs as [|op cs IH]; intros st; [done|].
  cbn [run_all]. rewrite IH. apply run_keeps_config.
Qed.

(** C7, as the claim words it, fails in its last part: the dataclass is not
    declared frozen, so assigning to a field of a built configuration goes
    through and changes the value. *)
Lemma config_immutable_counterexample :
  ∃ changed : WeapmConfig.t,
    WeapmConfig.setattr (sample_config "http://host:8080/") WeapmConfig.F_timeout (PyInt 5)
    = Ok changed
    ∧ WeapmConfig.timeout changed ≠ WeapmConfig.timeout (sample_config "http://host:8080/").
Proof. eexists. split; [reflexivity | discriminate]. Qed.

(** C7 (amended): the client keeps the configuration it was built from, and
    no method of the client changes any field of it: after any sequence of
    calls the [config] of the client is the value given to [__init__]. *)
Theorem client_keeps_config (srv : server) (cfg : WeapmConfig.t) (c : t)
    (cs : list call) (st : state) :
  __init__ cfg = Ok c →
  self st = c →
  config (self (run_all srv cs st)) = cfg
  ∧ ∀ f : WeapmConfig.field,
      WeapmConfig.getattr (config (self (run_all srv cs st))) f = WeapmConfig.getattr cfg f.
Proof.
  intros Hinit Hself.
  pose proof (run_all_keeps_config srv cs st) as Hkeep.
  assert (Hcfg : config c = cfg).
  { unfold __init__, init_under in Hinit.
    destruct (WeapmConfig.base_url cfg); try discriminate.
    by injection Hinit as <-. }
  rewrite Hkeep, Hself, Hcfg. done.
Qed.

Lemma client_keeps_config_witness :
  config (self (run_all (answering 200 (PyDict body_code0))
                  [Call_get_clusters; Call_close; Call_search_subsystems None 10]
                  (sample_state "http://host:8080/")))
  = sample_config "http://host:8080/".
Proof.
  exact (proj1 (client_keeps_config (answering 200 (PyDict body_code0))
                  (sample_config "http://host:8080/") (sample_client "http://host:8080/")
                  [Call_get_clusters; Call_close; Call_search_subsystems None 10]
                  (sample_state "http://host:8080/") eq_refl eq_refl)).
Defined.

(** ** C8: leaving the client scope *)

Lemma exit_closes (exc_type : option exn_class) (exc_val : option exn)
    (exc_tb : option traceback) (st : state) :
  __exit__ exc_type exc_val exc_tb st
  = (Ok PyNone,
     {| self := Make (config (self st)) (session_close (session (self st)))
                  (base_url (self st)) (timeout (self st));
        sent := sent st |}).
Proof. reflexivity. Qed.

(** C8: [__exit__] calls [close()], which closes the session, whatever
    exception triple it is given; so a [with] block over the client leaves
    the session closed on every way out of its body (normal end, exception,
    early exit), and hands on how the body ended. *)
Theorem session_released_on_exit (exc_type : option exn_class) (exc_val : option exn)
    (exc_tb : option traceback) (body : t → block) (st : state) :
  closed (session (self (snd (close st)))) = true
  ∧ snd (__exit__ exc_type exc_val exc_tb st) = snd (close st)
  ∧ closed (session (self (snd (with_client body st)))) = true
  ∧ fst (with_client body st) = fst (body (self st) st).
Proof.
  split; [reflexivity|]. split; [reflexivity|].
  unfold with_client, __enter__.
  destruct (body (self st) st) as [[|e tb|] st2]; rewrite exit_closes; by split.
Qed.

(** ** C10: the query parameters of [search_subsystems] *)

(** C10: [search_subsystems] sends [params] with the key [subsysId] exactly
    when [subsys_id] is a non-empty string (not for [None], not for the empty
    string), and with the key [limit] exactly when [limit] is not 20; with the
    default arguments [params] is empty. *)
Theorem search_subsystems_params (srv : server) (st : state) (subsys_id : option string)
    (limit : Z) :
  let params := search_params subsys_id limit in
  (∃ rq : request,
      sent (snd (search_subsystems srv subsys_id limit st)) = (sent st ++ [rq])%list
      ∧ req_kwargs rq !! "params" = Some (PyDict params))
  ∧ (is_Some (params !! "subsysId") ↔ ∃ s : string, subsys_id = Some s ∧ s ≠ "")
  ∧ (is_Some (params !! "limit") ↔ limit ≠ 20)
  ∧ (∀ v : pyval, params !! "subsysId" = Some v → Some v = PyStr <$> subsys_id)
  ∧ (∀ v : pyval, params !! "limit" = Some v → v = PyInt limit)
  ∧ (∀ k : string, k ≠ "subsysId" → k ≠ "limit" → params !! k = None)
  ∧ search_params None 20 = ∅
  ∧ search_params (Some "") 20 = ∅.
Proof.
  intros params.
  assert (Hid : params !! "subsysId"
                = match subsys_id with
                  | Some (String c s) => Some (PyStr (String c s))
                  | _ => None
                  end).
  { subst params. unfold search_params.
    destruct subsys_id as [[|c s]|]; cbn [from_option py_truthy String.eqb negb];
      destruct (negb (limit =? 20)); by simplify_map_eq. }
  assert (Hlimit : params !! "limit" = if decide (limit = 20) then None else Some (PyInt limit)).
  { subst params. unfold search_params.
    destruct (Z.eqb_spec limit 20) as [->|Hne]; cbn [negb];
      destruct (py_truthy (from_option PyStr PyNone subsys_id));
      case_decide; by simplify_map_eq. }
  split; [|split; [|split; [|split; [|split; [|split; [|split]]]]]].
  - unfold search_subsystems. rewrite mbind_lift_state, request_state. cbn [sent].
    eexists. split; [reflexivity|].
    unfold prepare, setdefault. cbn [req_kwargs]. by simplify_map_eq.
  - rewrite Hid. destruct subsys_id as [[|c s]|]; split.
    + intros [x Hx]. discriminate.
    + intros (s & [= <-] & Hs). done.
    + intros _. by eexists.
    + intros _. by eexists.
    + intros [x Hx]. discriminate.
    + intros (s & Hs & _). discriminate.
  - rewrite Hlimit. destruct (decide (limit = 20)) as [Heq|Hne]; split.
    + intros [x Hx]. discriminate.
    + intros Hne. by destruct Hne.
    + intros _. exact Hne.
    + intros _. by eexists.
  - intros v. rewrite Hid. destruct subsys_id as [[|c s]|]; try discriminate.
    by intros [= <-].
  - intros v. rewrite Hlimit. case_decide; [discriminate|]. by intros [= <-].
  - intros k Hk1 Hk2. subst params. unfold search_params.
    destruct (py_truthy _), (negb _); by simplify_map_eq.
  - reflexivity.
  - reflexivity.
Qed.

Lemma search_subsystems_params_witness :
  is_Some (search_params (Some "sys01") 20 !! "subsysId")
  ∧ is_Some (search_params None 10 !! "limit").
Proof.
  destruct (search_subsystems_params (answering 200 PyNone) (sample_state "http://host:8080/")
              (Some "sys01") 20) as (_ & Hid & _).
  destruct (search_subsystems_params (answering 200 PyNone) (sample_state "http://host:8080/")
              None 10) as (_ & _ & Hlimit & _).
  split.
  - apply Hid. exists "sys01". split; [reflexivity | discriminate].
  - apply Hlimit. discriminate.
Defined.

(** * Further properties of the client *)

(** ** Every operation in terms of the one request it sends *)

(** The outcome of [_request], step by step. *)
Lemma request_outcome (srv : server) (st : state) (method endpoint : string)
    (kwargs : gmap string pyval) :
  fst (_request srv method endpoint kwargs st)
  = let rq := prepare (self st) method endpoint kwargs in
    let* response := srv (session (self st)) (sent st) rq in
    let* _ := raise_for_status (req_url rq) response in
    let* data :=
      match json response with
      | Some data => Ok data
      | None => Raise (Exn ValueError
                         [Lit "无效的 JSON 响应: "; Lit (str_take 200 (text response))])
      end in
    check_code data.
Proof. unfold _request. cbn [fst]. by rewrite except_clauses_id. Qed.

Lemma returning_outcome (m : M pyval) (st : state) :
  fst (returning m st) = (let* v := fst (m st) in Ok (Value v)).
Proof. unfold returning, mbind, mret. by destruct (m st) as [[v|e] st']. Qed.

Lemma mbind_lift_outcome (m : M pyval) (f : pyval → result pyval) (st : state) :
  fst (mbind m (fun v => lift (f v)) st) = (let* v := fst (m st) in f v).
Proof. unfold mbind, lift. by destruct (m st) as [[v|e] st']. Qed.

Lemma last_snoc_eq (l : list request) (x rq : request) :
  last (l ++ [x]) = Some rq → rq = x.
Proof. rewrite last_snoc. congruence. Qed.

(** A call that reaches the session sends one prepared request, and its
    outcome is that of [_request] followed by the method's unwrapping. *)
Lemma run_outcome (srv : server) (op : call) (st : state) (rq : request) :
  sends_request op = true →
  last (sent (snd (run srv op st))) = Some rq →
  ∃ (method endpoint : string) (kwargs : gmap string pyval),
    rq = prepare (self st) method endpoint kwargs
    ∧ sent (snd (run srv op st)) = (sent st ++ [rq])%list
    ∧ fst (run srv op st)
      = (let* v := fst (_request srv method endpoint kwargs st) in
         let* w := unwrap op v in
         Ok (Value w)).
Proof.
  intros Hop Hlast.
  destruct op; try discriminate Hop; cbn [run] in *;
    rewrite returning_state in Hlast; rewrite returning_state, returning_outcome;
    unfold get_clusters, get_cluster_subsystems, get_subsystems, search_subsystems,
      get_dashboard, get_cluster_detail, add_cluster_node, delete_cluster_node,
      check_subsystem_exists, add_subsystem, adjust_subsystem_cluster,
      adjust_subsystem_status, enable_subsystem, get_subsystem_detail in *;
    rewrite ?mbind_lift_state, ?mbind_lift_outcome in *;
    rewrite request_state in Hlast |- *; cbn [sent] in Hlast |- *;
    apply last_snoc_eq in Hlast; subst rq;
    do 3 eexists; (split; [reflexivity|]); (split; [reflexivity|]);
    unfold unwrap; cbn [list_style];
    by destruct (fst (_request _ _ _ _ _)).
Qed.

(** ** Failures reach the caller of every operation *)

(** X1: when the session raises (timeout, connection error, any other
    exception) for the request an operation sends, the operation raises that
    same exception: no operation catches or converts it. *)
Theorem transport_failure_surfaces (srv : server) (op : call) (st : state)
    (rq : request) (e : exn) :
  sends_request op = true →
  last (sent (snd (run srv op st))) = Some rq →
  srv (session (self st)) (sent st) rq = Raise e →
  fst (run srv op st) = Raise e.
Proof.
  intros Hop Hlast Hsrv.
  destruct (run_outcome srv op st rq Hop Hlast) as (m & ep & kw & -> & _ & ->).
  rewrite request_outcome. cbn zeta. by rewrite Hsrv.
Qed.

Lemma transport_failure_surfaces_witness :
  fst (run (fun _ _ _ => Raise (Exn Timeout [])) Call_get_subsystems
         (sample_state "http://host:8080/"))
  = Raise (Exn Timeout []).
Proof.
  exact (transport_failure_surfaces (fun _ _ _ => Raise (Exn Timeout [])) Call_get_subsystems
           (sample_state "http://host:8080/")
           (prepare (sample_client "http://host:8080/") "GET" "/operation/subsystems" ∅)
           (Exn Timeout []) eq_refl eq_refl eq_refl).
Defined.



(** [s[:n]] is a prefix of [s], and it has [min n (len s)] characters. *)
Lemma str_take_prefix (n : nat) (s : string) : ∃ rest : string, s = str_take n s +:+ rest.
Proof.
  unfold str_take. revert n. induction s as [|c s IH]; intros n; [by exists ""|].
  cbn [utf8_take]. destruct (utf8_continuation c).
  - destruct (IH n) as (rest & Hrest). exists rest.
    change (String c s = String c (utf8_take n s +:+ rest)). by rewrite <- Hrest.
  - destruct n as [|n]; [by exists (String c s)|].
    destruct (IH n) as (rest & Hrest). exists rest.
    change (String c s = String c (utf8_take n s +:+ rest)). by rewrite <- Hrest.
Qed.

Lemma str_take_length (n : nat) (s : string) :
  utf8_length (str_take n s) = Nat.min n (utf8_length s).
Proof.
  unfold str_take. revert n. induction s as [|c s IH]; intros n.
  - cbn. by rewrite Nat.min_0_r.
  - cbn [utf8_take utf8_length]. destruct (utf8_continuation c) eqn:Ec.
    + cbn [utf8_length]. rewrite Ec. apply IH.
    + destruct n as [|n]; [done|]. cbn [utf8_length]. rewrite Ec, IH. reflexivity.
Qed.

(** The cut counts characters, not bytes: two characters of three bytes
    each are six bytes. *)
Example str_take_counts_characters :
  str_take 2 "日本語" = "日本" ∧ String.length (str_take 2 "日本語") = 6%nat.
Proof. split; reflexivity. Qed.

(** X3: when [response.json()] raises the [json.JSONDecodeError] of the
    standard library on a response that passed the status check, every
    operation raises the [ValueError] of line 186, whose message ends with
    the first 200 characters of the response text. *)
Theorem undecodable_body_surfaces (srv : server) (op : call) (st : state)
    (rq : request) (resp : Response) :
  sends_request op = true →
  last (sent (snd (run srv op st))) = Some rq →
  srv (session (self st)) (sent st) rq = Ok resp →
  status_code resp < 400 ∨ 600 ≤ status_code resp →
  json resp = None →
  fst (run srv op st)
  = Raise (Exn ValueError [Lit "无效的 JSON 响应: "; Lit (str_take 200 (text resp))]).
Proof.
  intros Hop Hlast Hsrv Hstatus Hjson.
  destruct (run_outcome srv op st rq Hop Hlast) as (m & ep & kw & -> & _ & ->).
  rewrite request_outcome. cbn zeta. rewrite Hsrv. cbn [result_bind].
  rewrite (raise_for_status_pass _ _ Hstatus). cbn [result_bind].
  by rewrite Hjson.
Qed.

Lemma undecodable_body_surfaces_witness :
  fst (run (fun _ _ _ => Ok {| status_code := 200; text := "<html>错误"; json := None |})
         (Call_delete_cluster_node "10.0.0.1") (sample_state "http://host:8080/"))
  = Raise (Exn ValueError [Lit "无效的 JSON 响应: "; Lit "<html>错误"]).
Proof.
  exact (undecodable_body_surfaces
           (fun _ _ _ => Ok {| status_code := 200; text := "<html>错误"; json := None |})
           (Call_delete_cluster_node "10.0.0.1") (sample_state "http://host:8080/")
           (prepare (sample_client "http://host:8080/") "DELETE"
              "/operation/clusters/nodes/10.0.0.1" ∅)
           {| status_code := 200; text := "<html>错误"; json := None |}
           eq_refl eq_refl eq_refl (or_introl eq_refl) eq_refl).
Defined.

(** X4: a decoded mapping whose [code] is anything but [0], [False] or a
    float zero (a non-zero number, but also [None] or a string such as ["0"])
    makes every operation raise the business error; the list-style operations
    do not get as far as unwrapping [result]. *)
Theorem business_error_surfaces (srv : server) (op : call) (st : state)
    (rq : request) (resp : Response) (d : gmap string pyval) (code : pyval) :
  sends_request op = true →
  last (sent (snd (run srv op st))) = Some rq →
  srv (session (self st)) (sent st) rq = Ok resp →
  status_code resp < 400 ∨ 600 ≤ status_code resp →
  json resp = Some (PyDict d) →
  d !! "code" = Some code →
  code ≠ PyInt 0 →
  code ≠ PyBool false →
  (∀ sign : bool, code ≠ PyFloat (S754_zero sign)) →
  fst (run srv op st)
  = Raise (Exn HTTPError [Lit "API 错误 (code "; Fmt code; Lit "): ";
                          Fmt (default (PyStr "未知错误") (d !! "message"))]).
Proof.
  intros Hop Hlast Hsrv Hstatus Hjson Hcode Hint Hbool Hfloat.
  destruct (run_outcome srv op st rq Hop Hlast) as (m & ep & kw & -> & _ & ->).
  rewrite (request_decoded _ _ _ _ _ _ _ Hsrv Hstatus Hjson).
  rewrite (check_code_table _ _ Hcode).
  destruct code as [|[]|[]|[]| | |]; try reflexivity; try done.
  all: by destruct (Hfloat s).
Qed.

Lemma business_error_surfaces_witness :
  fst (run (answering 200 (PyDict (dict_of [("code", PyStr "0")]))) Call_get_clusters
         (sample_state "http://host:8080/"))
  = Raise (Exn HTTPError [Lit "API 错误 (code "; Fmt (PyStr "0"); Lit "): ";
                          Fmt (PyStr "未知错误")]).
Proof.
  refine (business_error_surfaces (answering 200 (PyDict (dict_of [("code", PyStr "0")])))
            Call_get_clusters (sample_state "http://host:8080/")
            (prepare (sample_client "http://host:8080/") "GET" "/operation/clusters" ∅)
            {| status_code := 200; text := "";
               json := Some (PyDict (dict_of [("code", PyStr "0")])) |}
            (dict_of [("code", PyStr "0")]) (PyStr "0")
            eq_refl eq_refl eq_refl (or_introl eq_refl) eq_refl eq_refl _ _ _);
    [discriminate | discriminate | intros sign; discriminate].
Defined.

(** ** What the operations return *)

(** X5: an operation that is not list-style returns the decoded body as it
    came, envelope included, whenever the body is no mapping, or a mapping
    without a [code] key, or a mapping whose [code] is 0. *)
Theorem detail_operations_return_payload (srv : server) (op : call) (st : state)
    (rq : request) (resp : Response) (data : pyval) :
  sends_request op = true →
  list_style op = false →
  last (sent (snd (run srv op st))) = Some rq →
  srv (session (self st)) (sent st) rq = Ok resp →
  status_code resp < 400 ∨ 600 ≤ status_code resp →
  json resp = Some data →
  (∀ d : gmap string pyval, data = PyDict d →
     d !! "code" = None ∨ d !! "code" = Some (PyInt 0)) →
  fst (run srv op st) = Ok (Value data).
Proof.
  intros Hop Hlist Hlast Hsrv Hstatus Hjson Hcode.
  destruct (run_outcome srv op st rq Hop Hlast) as (m & ep & kw & -> & _ & ->).
  rewrite (request_decoded _ _ _ _ _ _ _ Hsrv Hstatus Hjson).
  assert (Hcheck : check_code data = Ok data).
  { destruct data as [| | | | | |d]; try reflexivity.
    unfold check_code. destruct (Hcode d eq_refl) as [->| ->]; reflexivity. }
  rewrite Hcheck. unfold unwrap. by rewrite Hlist.
Qed.

Lemma detail_operations_return_payload_witness :
  fst (run (answering 200 (PyDict (dict_of [("exists", PyBool true)])))
         (Call_check_subsystem_exists "SYS001") (sample_state "http://host:8080/"))
  = Ok (Value (PyDict (dict_of [("exists", PyBool true)]))).
Proof.
  refine (detail_operations_return_payload
            (answering 200 (PyDict (dict_of [("exists", PyBool true)])))
            (Call_check_subsystem_exists "SYS001") (sample_state "http://host:8080/")
            (prepare (sample_client "http://host:8080/") "GET"
               "/operation/subsystem/exists/SYS001" ∅)
            {| status_code := 200; text := "";
               json := Some (PyDict (dict_of [("exists", PyBool true)])) |}
            (PyDict (dict_of [("exists", PyBool true)]))
            eq_refl eq_refl eq_refl eq_refl (or_introl eq_refl) eq_refl _).
  intros d [= <-]. left. reflexivity.
Defined.

(** X6: when the decoded body is not a mapping (a JSON list, say), the
    list-style operations do not return it: [_request] lets it through, and
    the [.get('result', [])] that follows raises [AttributeError]. *)
Theorem list_style_non_mapping_raises (srv : server) (op : call) (st : state)
    (rq : request) (resp : Response) (data : pyval) :
  list_style op = true →
  last (sent (snd (run srv op st))) = Some rq →
  srv (session (self st)) (sent st) rq = Ok resp →
  status_code resp < 400 ∨ 600 ≤ status_code resp →
  json resp = Some data →
  (∀ d : gmap string pyval, data ≠ PyDict d) →
  ∃ msg : list fragment, fst (run srv op st) = Raise (Exn AttributeError msg).
Proof.
  intros Hlist Hlast Hsrv Hstatus Hjson Hshape.
  assert (Hop : sends_request op = true) by (by destruct op).
  destruct (run_outcome srv op st rq Hop Hlast) as (m & ep & kw & -> & _ & ->).
  rewrite (request_decoded _ _ _ _ _ _ _ Hsrv Hstatus Hjson).
  unfold unwrap. rewrite Hlist.
  destruct data as [| | | | | |d]; try (eexists; reflexivity). by destruct (Hshape d).
Qed.

Lemma list_style_non_mapping_raises_witness :
  ∃ msg : list fragment,
    fst (run (answering 200 (PyList [PyDict body_code0])) Call_get_clusters
           (sample_state "http://host:8080/"))
    = Raise (Exn AttributeError msg).
Proof.
  refine (list_style_non_mapping_raises (answering 200 (PyList [PyDict body_code0]))
            Call_get_clusters (sample_state "http://host:8080/")
            (prepare (sample_client "http://host:8080/") "GET" "/operation/clusters" ∅)
            {| status_code := 200; text := ""; json := Some (PyList [PyDict body_code0]) |}
            (PyList [PyDict body_code0])
            eq_refl eq_refl eq_refl (or_introl eq_refl) eq_refl _).
  intros d; discriminate.
Defined.

(** ** The session log *)

Lemma run_sent (srv : server) (op : call) (st : state) :
  ∃ new : list request,
    sent (snd (run srv op st)) = (sent st ++ new)%list
    ∧ length new = (if sends_request op then 1 else 0)%nat.
Proof.
  destruct op; cbn [run sends_request];
    try (rewrite returning_state;
         unfold get_clusters, get_cluster_subsystems, get_subsystems, search_subsystems,
           get_dashboard, get_cluster_detail, add_cluster_node, delete_cluster_node,
           check_subsystem_exists, add_subsystem, adjust_subsystem_cluster,
           adjust_subsystem_status, enable_subsystem, get_subsystem_detail;
         rewrite ?mbind_lift_state, ?request_state; cbn [sent];
         by eexists [_]).
  all: exists []; split; [|done]; by rewrite app_nil_r.
Qed.

(** X7: a sequence of calls hands the session exactly one request per call
    that is an operation, in order and after the ones already sent, whether
    the calls succeed or raise; [close], [__enter__] and [__exit__] send
    none. Nothing is retried or sent twice by the client itself. *)
Theorem one_request_per_operation (srv : server) (cs : list call) (st : state) :
  ∃ new : list request,
    sent (run_all srv cs st) = (sent st ++ new)%list
    ∧ length new = requests_made cs.
Proof.
  revert st. induction cs as [|op cs IH]; intros st.
  - exists []. split; [|done]. cbn. by rewrite app_nil_r.
  - cbn [run_all]. destruct (IH (snd (run srv op st))) as (new2 & Hsent2 & Hlen2).
    destruct (run_sent srv op st) as (new1 & Hsent1 & Hlen1).
    exists (new1 ++ new2)%list. split.
    + by rewrite Hsent2, Hsent1, app_assoc.
    + rewrite length_app, Hlen1, Hlen2. unfold requests_made.
      rewrite filter_cons. destruct (sends_request op) eqn:E.
      * rewrite decide_True by done. reflexivity.
      * rewrite decide_False by (by intros ?). reflexivity.
Qed.

(** ** The timeout of a request *)

(** X8: every typed operation sends its request with the [timeout] of the
    configuration the client was built from; a bare [_request] does the same
    unless its caller passes a [timeout] keyword, which is then kept. *)
Theorem request_timeout (srv : server) (cfg : WeapmConfig.t) (c : t) (st : state)
    (op : call) (rq : request) :
  __init__ cfg = Ok c →
  self st = c →
  sends_request op = true →
  last (sent (snd (run srv op st))) = Some rq →
  req_kwargs rq !! "timeout"
  = Some (match op with
          | Call_request _ _ kwargs => default (WeapmConfig.timeout cfg) (kwargs !! "timeout")
          | _ => WeapmConfig.timeout cfg
          end).
Proof.
  intros Hinit Hself Hop Hlast.
  assert (Ht : timeout (self st) = WeapmConfig.timeout cfg).
  { rewrite Hself. unfold __init__, init_under in Hinit.
    destruct (WeapmConfig.base_url cfg); try discriminate. by injection Hinit as <-. }
  destruct op; try discriminate Hop; cbn [run] in Hlast;
    rewrite returning_state in Hlast;
    unfold get_clusters, get_cluster_subsystems, get_subsystems, search_subsystems,
      get_dashboard, get_cluster_detail, add_cluster_node, delete_cluster_node,
      check_subsystem_exists, add_subsystem, adjust_subsystem_cluster,
      adjust_subsystem_status, enable_subsystem, get_subsystem_detail in Hlast;
    rewrite ?mbind_lift_state in Hlast;
    rewrite request_state in Hlast; cbn [sent] in Hlast;
    apply last_snoc_eq in Hlast; subst rq;
    unfold prepare, setdefault; cbn [req_kwargs]; rewrite Ht;
    try (by simplify_map_eq).
  destruct (kwargs !! "timeout") as [v|] eqn:E; cbn [default]; by simplify_map_eq.
Qed.

Lemma request_timeout_witness :
  req_kwargs (prepare (sample_client "http://host:8080/") "GET" "/operation/subsystems/search"
                {["params" := PyDict (search_params None 10)]}) !! "timeout"
  = Some (PyInt 30).
Proof.
  exact (request_timeout (answering 200 PyNone) (sample_config "http://host:8080/")
           (sample_client "http://host:8080/") (sample_state "http://host:8080/")
           (Call_search_subsystems None 10)
           (prepare (sample_client "http://host:8080/") "GET" "/operation/subsystems/search"
              {["params" := PyDict (search_params None 10)]})
           eq_refl eq_refl eq_refl eq_refl).
Defined.

(** ** The client object over a sequence of calls *)

Lemma run_self (srv : server) (op : call) (st : state) :
  self (snd (run srv op st))
  = if closes_session op
    then Make (config (self st)) (session_close (session (self st)))
           (base_url (self st)) (timeout (self st))
    else self st.
Proof.
  destruct op; cbn [run closes_session];
    try (rewrite returning_state;
         unfold get_clusters, get_cluster_subsystems, get_subsystems, search_subsystems,
           get_dashboard, get_cluster_detail, add_cluster_node, delete_cluster_node,
           check_subsystem_exists, add_subsystem, adjust_subsystem_cluster,
           adjust_subsystem_status, enable_subsystem, get_subsystem_detail;
         rewrite ?mbind_lift_state, ?request_state; reflexivity).
  all: reflexivity.
Qed.

(** X9: over any sequence of calls the client keeps its base URL, its
    timeout, and the credentials and adapters of its session; the session is
    closed afterwards exactly when it was closed before or the sequence has a
    [close] or an [__exit__]. So a closed session is never reopened, and no
    operation closes it as a side effect. *)
Theorem session_closed_only_by_close (srv : server) (cs : list call) (st : state) :
  base_url (self (run_all srv cs st)) = base_url (self st)
  ∧ timeout (self (run_all srv cs st)) = timeout (self st)
  ∧ auth (session (self (run_all srv cs st))) = auth (session (self st))
  ∧ adapters (session (self (run_all srv cs st))) = adapters (session (self st))
  ∧ closed (session (self (run_all srv cs st)))
    = (closed (session (self st)) || existsb closes_session cs)%bool.
Proof.
  revert st. induction cs as [|op cs IH]; intros st.
  - cbn. by rewrite orb_false_r.
  - cbn [run_all existsb]. destruct (IH (snd (run srv op st))) as (H1 & H2 & H3 & H4 & H5).
    rewrite H1, H2, H3, H4, H5, run_self.
    destruct (closes_session op); cbn; [|done].
    by rewrite orb_true_r.
Qed.

(** ** Building the client *)

Lemma init_adapters (cfg : WeapmConfig.t) (c : t) (prefix : string) :
  __init__ cfg = Ok c →
  adapters (session c) !! prefix
  = if decide (prefix = "http://" ∨ prefix = "https://") then Some (adapter cfg) else None.
Proof.
  unfold __init__, init_under.
  destruct (WeapmConfig.base_url cfg); try discriminate. intros [= <-].
  unfold session_mount, session_set_auth, new_session. cbn [session adapters].
  case_decide as Hp.
  - destruct Hp as [-> | ->]; by simplify_map_eq.
  - assert (prefix ≠ "http://" ∧ prefix ≠ "https://") as [? ?] by tauto.
    by simplify_map_eq.
Qed.

(** X10: how [__init__] ends, for either kind of urllib3 release. With a
    [base_url] that is no string it raises [AttributeError]. With a string
    [base_url] and urllib3 2.0 or later it raises [TypeError], for every
    configuration, because [Retry] no longer takes [method_whitelist]. With a
    string [base_url] and a 1.x release it succeeds: the client holds the
    configuration as given and the base URL with only trailing slashes taken
    off; its session is open, carries the configured credentials, and has
    the one retrying adapter mounted for both [http://] and [https://], in
    place of the default adapters. *)
Theorem init_outcome (release : urllib3_release) (cfg : WeapmConfig.t) :
  match init_under release cfg with
  | Ok c =>
      release = Urllib3_1
      ∧ __init__ cfg = Ok c
      ∧ (∃ b dropped : string,
            WeapmConfig.base_url cfg = PyStr b
            ∧ b = base_url c +:+ dropped
            ∧ all_slashes dropped = true
            ∧ trailing_slashes (base_url c) = O)
      ∧ config c = cfg
      ∧ closed (session c) = false
      ∧ auth (session c) = Some (WeapmConfig.username cfg, WeapmConfig.password cfg)
      ∧ (∀ prefix : string,
           adapters (session c) !! prefix
           = if decide (prefix = "http://" ∨ prefix = "https://")
             then Some (adapter cfg) else None)
      ∧ adapter_max_retries (adapter cfg)
        = Some {| total := WeapmConfig.max_retries cfg;
                  backoff_factor := WeapmConfig.retry_backoff_factor cfg;
                  status_forcelist := [429; 500; 502; 503; 504];
                  method_whitelist := ["HEAD"; "GET"; "OPTIONS"; "POST"; "PUT"; "DELETE"] |}
  | Raise e =>
      (exn_class_of e = AttributeError ∧ ∀ b : string, WeapmConfig.base_url cfg ≠ PyStr b)
      ∨ (exn_class_of e = TypeError ∧ release = Urllib3_2
         ∧ ∃ b : string, WeapmConfig.base_url cfg = PyStr b)
  end.
Proof.
  destruct (init_under release cfg) as [c|e] eqn:E.
  - assert (Hrel : release = Urllib3_1).
    { unfold init_under in E. destruct (WeapmConfig.base_url cfg); try discriminate.
      by destruct release. }
    subst release. split; [done|]. split; [exact E|].
    pose proof (init_adapters cfg c) as Hadapters.
    unfold __init__ in Hadapters. specialize (fun prefix => Hadapters prefix E).
    unfold init_under in E.
    destruct (WeapmConfig.base_url cfg) as [| | | |b| |] eqn:Eb; try discriminate.
    injection E as <-. cbn [config session base_url].
    split; [|split; [done|split; [done|split; [done|split; [|done]]]]].
    + destruct (rstrip_decompose b) as (dropped & Hb & Hd).
      exists b, dropped. split; [done|]. split; [done|]. split; [done|].
      apply rstrip_trailing.
    + exact Hadapters.
  - unfold init_under in E.
    destruct (WeapmConfig.base_url cfg) as [| | | |b| |] eqn:Eb;
      try (left; injection E as <-; split; [reflexivity | intros b'; discriminate]).
    destruct release; [discriminate|]. right. injection E as <-.
    split; [reflexivity|]. split; [reflexivity|]. by exists b.
Qed.

(** * Further properties of the configuration *)



(** X12: [from_dict] reads nine keys and nothing else: adding or changing
    any other key of the dictionary ([description], a misspelt field name)
    changes nothing in the configuration. *)
Theorem from_dict_ignores_other_keys (block : gmap string pyval) (k : string) (v : pyval) :
  k ∉ ["base_url"; "username"; "password"; "timeout"; "max_retries";
       "retry_backoff_factor"; "pool_connections"; "pool_maxsize"; "enable_logging"] →
  WeapmConfig.from_dict (PyDict (<[k := v]> block)) = WeapmConfig.from_dict (PyDict block).
Proof.
  intros Hk.
  assert (Hne : ∀ key : string,
             key ∈ ["base_url"; "username"; "password"; "timeout"; "max_retries";
                    "retry_backoff_factor"; "pool_connections"; "pool_maxsize";
                    "enable_logging"] →
             <[k := v]> block !! key = block !! key).
  { intros key Hkey. apply lookup_insert_ne. intros <-. by apply Hk. }
  unfold WeapmConfig.from_dict. cbn [py_get result_bind].
  rewrite (Hne "base_url"), (Hne "username"), (Hne "password"), (Hne "timeout"),
    (Hne "max_retries"), (Hne "retry_backoff_factor"), (Hne "pool_connections"),
    (Hne "pool_maxsize"), (Hne "enable_logging") by set_solver.
  reflexivity.
Qed.

Lemma from_dict_ignores_other_keys_witness :
  WeapmConfig.from_dict
    (PyDict (<["description" := PyStr "dev box"]>
               (dict_of [("base_url", PyStr "http://host:8080/")])))
  = WeapmConfig.from_dict (PyDict (dict_of [("base_url", PyStr "http://host:8080/")])).
Proof.
  apply (from_dict_ignores_other_keys (dict_of [("base_url", PyStr "http://host:8080/")])
           "description" (PyStr "dev box")).
  intros H. repeat (apply elem_of_cons in H as [H|H]; [discriminate H|]).
  by apply elem_of_nil in H.
Defined.



(** X14: with the environment name omitted, a file that exists but does not
    hold a mapping (an empty file loads as [None]) makes [from_yaml] raise
    [AttributeError]: neither of the two exceptions its docstring lists. *)
Theorem from_yaml_document_not_mapping (fs : WeapmConfig.filesystem)
    (config_path : option string) (doc : pyval) :
  WeapmConfig.load fs (default (WeapmConfig.script_dir fs +:+ "/config.yaml") config_path)
  = Some (Ok doc) →
  (∀ d : gmap string pyval, doc ≠ PyDict d) →
  ∃ msg : list fragment,
    WeapmConfig.from_yaml fs config_path None = Raise (Exn AttributeError msg).
Proof.
  intros Hload Hdoc. unfold WeapmConfig.from_yaml. rewrite Hload. cbn [result_bind].
  destruct doc; try (eexists; reflexivity). by destruct (Hdoc d).
Qed.

Lemma from_yaml_document_not_mapping_witness :
  ∃ msg : list fragment,
    WeapmConfig.from_yaml (one_file PyNone) (Some "config.yaml") None
    = Raise (Exn AttributeError msg).
Proof.
  refine (from_yaml_document_not_mapping (one_file PyNone) (Some "config.yaml") PyNone
            eq_refl _).
  intros d; discriminate.
Defined.

(** * Further properties of the endpoints *)

Lemma append_assoc (a b c : string) : (a +:+ b) +:+ c = a +:+ (b +:+ c).
Proof.
  induction a as [|x a IH]; [done|].
  change (String x ((a +:+ b) +:+ c) = String x (a +:+ (b +:+ c))). by rewrite IH.
Qed.

(** X15: arguments are put into the endpoint as they are, with no escaping,
    so different calls can be the same request. A target cluster name that
    carries ["&logImportValue="] is read as the next query parameter, and a
    subsystem id that starts with ["exists/"] turns [get_subsystem_detail]
    into [check_subsystem_exists]. *)
Theorem endpoint_arguments_not_escaped (srv : server) (st : state)
    (subsystem_id a b c files : string) (traffic : Z) :
  adjust_subsystem_cluster srv subsystem_id (a +:+ "&logImportValue=" +:+ b) c files traffic st
  = adjust_subsystem_cluster srv subsystem_id a (b +:+ "&logImportValue=" +:+ c) files traffic st
  ∧ get_subsystem_detail srv ("exists/" +:+ subsystem_id) st
    = check_subsystem_exists srv subsystem_id st.
Proof.
  split; [|reflexivity].
  unfold adjust_subsystem_cluster. by rewrite !append_assoc.
Qed.

(** X16: [add_cluster_node] names the cluster twice, in the URL and in the
    body key [clustername]; a keyword argument called [clustername] replaces
    the one in the body and leaves the URL alone, so the two can disagree. *)
Theorem clustername_keyword_overrides_body (srv : server) (st : state)
    (cluster_name address role : string) (cpulimit memlimit : option string)
    (kwargs : gmap string pyval) (v : pyval) :
  kwargs !! "clustername" = Some v →
  ∃ (rq : request) (body : gmap string pyval),
    sent (snd (add_cluster_node srv cluster_name address role cpulimit memlimit kwargs st))
    = (sent st ++ [rq])%list
    ∧ req_url rq = base_url (self st) +:+ "/operation/clusters/" +:+ cluster_name +:+ "/nodes"
    ∧ req_kwargs rq !! "json" = Some (PyDict body)
    ∧ body !! "clustername" = Some v.
Proof.
  intros Hkw. unfold add_cluster_node. rewrite request_state. cbn [sent].
  eexists _, _. split; [reflexivity|]. split; [reflexivity|]. split.
  - unfold prepare, setdefault. cbn [req_kwargs]. by simplify_map_eq.
  - unfold add_cluster_node_data. by apply lookup_union_Some_l.
Qed.

Lemma clustername_keyword_overrides_body_witness :
  ∃ (rq : request) (body : gmap string pyval),
    sent (snd (add_cluster_node (answering 200 PyNone) "LOG008" "127.0.0.2" "write" None None
                 (dict_of [("clustername", PyStr "LOG009")])
                 (sample_state "http://host:8080/")))
    = [rq]
    ∧ req_url rq = "http://host:8080/operation/clusters/LOG008/nodes"
    ∧ req_kwargs rq !! "json" = Some (PyDict body)
    ∧ body !! "clustername" = Some (PyStr "LOG009").
Proof.
  exact (clustername_keyword_overrides_body (answering 200 PyNone)
           (sample_state "http://host:8080/") "LOG008" "127.0.0.2" "write" None None
           (dict_of [("clustername", PyStr "LOG009")]) (PyStr "LOG009") eq_refl).
Defined.

(** * Properties of the command line tool *)

(** ** Which exceptions an operation can raise *)






(** ** [main] *)



(** X18: when [--config] or [--env] is given, the configuration comes from
    the file: [--base-url], [--username], [--password] and [--timeout] are
    not used, and [--output] never is, so a run with other values for them
    does exactly the same. *)
Theorem yaml_options_take_precedence (srv : server) (fs : WeapmConfig.filesystem)
    (args : WeapmCli.Args) (url user pass : option string) (secs : Z) (fmt : string) :
  (WeapmCli.given (WeapmCli.config args) || WeapmCli.given (WeapmCli.env args))%bool = true →
  WeapmCli.main srv fs
    {| WeapmCli.config := WeapmCli.config args; WeapmCli.env := WeapmCli.env args;
       WeapmCli.base_url := url; WeapmCli.username := user; WeapmCli.password := pass;
       WeapmCli.timeout := secs; WeapmCli.quiet := WeapmCli.quiet args;
       WeapmCli.output := fmt; WeapmCli.command := WeapmCli.command args |}
  = WeapmCli.main srv fs args.
Proof.
  intros H. unfold WeapmCli.main, WeapmCli.load_config.
  cbn [WeapmCli.config WeapmCli.env WeapmCli.command]. by rewrite H.
Qed.

Lemma yaml_options_take_precedence_witness :
  WeapmCli.main (answering 200 (PyDict body_code0)) (one_file (PyDict doc_dev_ok))
    {| WeapmCli.config := Some "config.yaml"; WeapmCli.env := None;
       WeapmCli.base_url := Some "http://other:1/"; WeapmCli.username := Some "root";
       WeapmCli.password := None; WeapmCli.timeout := 5; WeapmCli.quiet := false;
       WeapmCli.output := "json"; WeapmCli.command := Some WeapmCli.Cmd_dashboard |}
  = WeapmCli.main (answering 200 (PyDict body_code0)) (one_file (PyDict doc_dev_ok))
      (args_with_config "config.yaml" (Some WeapmCli.Cmd_dashboard)).
Proof.
  exact (yaml_options_take_precedence (answering 200 (PyDict body_code0))
           (one_file (PyDict doc_dev_ok))
           (args_with_config "config.yaml" (Some WeapmCli.Cmd_dashboard))
           (Some "http://other:1/") (Some "root") None 5 "json" eq_refl).
Defined.

(** X19: with [--base-url] and neither [--config] nor [--env], [main] takes
    the configuration from the command line and does not look at any file:
    the run is the same on every file system. The timeout of each request is
    then the [--timeout] value. *)
Theorem base_url_option_skips_files (srv : server) (fs fs' : WeapmConfig.filesystem)
    (args : WeapmCli.Args) :
  WeapmCli.given (WeapmCli.config args) = false →
  WeapmCli.given (WeapmCli.env args) = false →
  WeapmCli.given (WeapmCli.base_url args) = true →
  WeapmCli.main srv fs args = WeapmCli.main srv fs' args
  ∧ ∃ cfg : WeapmConfig.t,
      WeapmCli.load_config fs args = (Ok cfg, [])
      ∧ WeapmConfig.base_url cfg = from_option PyStr PyNone (WeapmCli.base_url args)
      ∧ WeapmConfig.timeout cfg = PyInt (WeapmCli.timeout args).
Proof.
  intros Hc He Hu. unfold WeapmCli.main, WeapmCli.load_config. rewrite Hc, He, Hu.
  cbn [orb]. split; [reflexivity|]. eexists. split; [reflexivity|]. split; [|reflexivity].
  cbn [WeapmConfig.base_url]. destruct (WeapmCli.base_url args); [done|discriminate].
Qed.

Lemma base_url_option_skips_files_witness :
  WeapmCli.main (answering 200 (PyDict body_code0)) (one_file PyNone)
    (args_with_url "http://host:8080/" (Some WeapmCli.Cmd_dashboard))
  = WeapmCli.main (answering 200 (PyDict body_code0)) (one_file (PyDict doc_dev_ok))
      (args_with_url "http://host:8080/" (Some WeapmCli.Cmd_dashboard)).
Proof.
  exact (proj1 (base_url_option_skips_files (answering 200 (PyDict body_code0))
                  (one_file PyNone) (one_file (PyDict doc_dev_ok))
                  (args_with_url "http://host:8080/" (Some WeapmCli.Cmd_dashboard))
                  eq_refl eq_refl eq_refl)).
Defined.

(** X20: [main] turns only [FileNotFoundError] and [ValueError] into a
    message and exit status 1. A configuration file that exists but holds no
    mapping (an empty file) makes [from_yaml] raise [AttributeError], and
    [main] lets it through: nothing is printed, no client is built. *)
Theorem main_unreadable_document (srv : server) (fs : WeapmConfig.filesystem)
    (args : WeapmCli.Args) (c : WeapmCli.subcommand) (path : string) (doc : pyval) :
  WeapmCli.command args = Some c →
  WeapmCli.config args = Some path →
  WeapmCli.given (Some path) = true →
  WeapmCli.env args = None →
  WeapmConfig.load fs path = Some (Ok doc) →
  (∀ d : gmap string pyval, doc ≠ PyDict d) →
  ∃ msg : list fragment,
    WeapmCli.main srv fs args
    = {| WeapmCli.outcome := Raise (Exn AttributeError msg);
         WeapmCli.client_left := None;
         WeapmCli.printed := [] |}.
Proof.
  intros Hc Hp Hg He Hload Hdoc. unfold WeapmCli.main, WeapmCli.load_config.
  rewrite Hc, Hp, He, Hg. cbn [orb].
  unfold WeapmConfig.from_yaml.
  change (default (WeapmConfig.script_dir fs +:+ "/config.yaml") (Some path)) with path.
  rewrite Hload. cbn [result_bind].
  destruct doc as [| | | | | |d]; try (eexists; reflexivity). by destruct (Hdoc d).
Qed.

Lemma main_unreadable_document_witness :
  ∃ msg : list fragment,
    WeapmCli.main (answering 200 (PyDict body_code0)) (one_file PyNone)
      (args_with_config "config.yaml" (Some WeapmCli.Cmd_dashboard))
    = {| WeapmCli.outcome := Raise (Exn AttributeError msg);
         WeapmCli.client_left := None;
         WeapmCli.printed := [] |}.
Proof.
  refine (main_unreadable_document (answering 200 (PyDict body_code0)) (one_file PyNone)
            (args_with_config "config.yaml" (Some WeapmCli.Cmd_dashboard))
            WeapmCli.Cmd_dashboard "config.yaml" PyNone
            eq_refl eq_refl eq_refl eq_refl eq_refl _).
  intros d; discriminate.
Defined.



Lemma cmd_print_state (m : M pyval) (s : WeapmCli.cli_state) :
  WeapmCli.client_state
    (snd (WeapmCli.cbind (WeapmCli.on_client m)
            (fun result => WeapmCli.print (WeapmCli.Dump result)) s))
  = snd (m (WeapmCli.client_state s)).
Proof.
  unfold WeapmCli.cbind, WeapmCli.on_client, WeapmCli.print.
  by destruct (m (WeapmCli.client_state s)) as [[v|e] st].
Qed.

(** X22: the [add-node] command always passes [topic], [bucketnames],
    [backenddomain], [storagedomain] and [status] as keywords, so the JSON
    body it posts always has these five keys, with a null for each option
    that was not given; [cpulimit] and [memlimit] are in the body only when
    given. The three-key body of the library call cannot come from the
    command line. *)
Theorem cmd_add_node_body (srv : server) (s : WeapmCli.cli_state)
    (cluster_name address role : string)
    (cpulimit memlimit topic bucketnames backenddomain storagedomain status : option string) :
  ∃ (rq : request) (body : gmap string pyval),
    sent (WeapmCli.client_state
            (snd (WeapmCli.cmd_add_node srv cluster_name address role cpulimit memlimit
                    topic bucketnames backenddomain storagedomain status s)))
    = (sent (WeapmCli.client_state s) ++ [rq])%list
    ∧ req_kwargs rq !! "json" = Some (PyDict body)
    ∧ body !! "address" = Some (PyStr address)
    ∧ body !! "clustername" = Some (PyStr cluster_name)
    ∧ body !! "role" = Some (PyStr role)
    ∧ body !! "cpulimit" = PyStr <$> cpulimit
    ∧ body !! "memlimit" = PyStr <$> memlimit
    ∧ body !! "topic" = Some (from_option PyStr PyNone topic)
    ∧ body !! "bucketnames" = Some (from_option PyStr PyNone bucketnames)
    ∧ body !! "backenddomain" = Some (from_option PyStr PyNone backenddomain)
    ∧ body !! "storagedomain" = Some (from_option PyStr PyNone storagedomain)
    ∧ body !! "status" = Some (from_option PyStr PyNone status).
Proof.
  unfold WeapmCli.cmd_add_node. rewrite cmd_print_state.
  unfold add_cluster_node. rewrite request_state. cbn [sent].
  eexists _, _. split; [reflexivity|]. split.
  { unfold prepare, setdefault. cbn [req_kwargs]. by simplify_map_eq. }
  assert (Hkw : ∀ (k : string) (v : pyval),
             WeapmCli.add_node_keywords topic bucketnames backenddomain storagedomain status
               !! k = Some v →
             add_cluster_node_data cluster_name address role cpulimit memlimit
               (WeapmCli.add_node_keywords topic bucketnames backenddomain storagedomain status)
               !! k = Some v).
  { intros k v Hk. unfold add_cluster_node_data. by apply lookup_union_Some_l. }
  assert (Hother : ∀ k : string,
             WeapmCli.add_node_keywords topic bucketnames backenddomain storagedomain status
               !! k = None →
             add_cluster_node_data cluster_name address role cpulimit memlimit
               (WeapmCli.add_node_keywords topic bucketnames backenddomain storagedomain status)
               !! k
             = add_cluster_node_data cluster_name address role cpulimit memlimit ∅ !! k).
  { intros k Hk. unfold add_cluster_node_data.
    by rewrite (lookup_union_r _ _ _ Hk), (left_id_L ∅ (∪)). }
  repeat split.
  - rewrite Hother by done. unfold add_cluster_node_data. rewrite (left_id_L ∅ (∪)).
    destruct cpulimit, memlimit; by simplify_map_eq.
  - rewrite Hother by done. unfold add_cluster_node_data. rewrite (left_id_L ∅ (∪)).
    destruct cpulimit, memlimit; by simplify_map_eq.
  - rewrite Hother by done. unfold add_cluster_node_data. rewrite (left_id_L ∅ (∪)).
    destruct cpulimit, memlimit; by simplify_map_eq.
  - rewrite Hother by done. unfold add_cluster_node_data. rewrite (left_id_L ∅ (∪)).
    destruct cpulimit, memlimit; by simplify_map_eq.
  - rewrite Hother by done. unfold add_cluster_node_data. rewrite (left_id_L ∅ (∪)).
    destruct cpulimit, memlimit; by simplify_map_eq.
  - by apply Hkw.
  - by apply Hkw.
  - by apply Hkw.
  - by apply Hkw.
  - by apply Hkw.
Qed.

(** * Properties of the weekly report helper *)

Lemma path_le_total : Total WeeklyFiles.path_le.
Proof. intros a b. unfold WeeklyFiles.path_le. apply String.leb_total. Qed.

Lemma fmap_NoDup_inj {A B} (f : A → B) (l : list A) (x y : A) :
  NoDup (f <$> l) → x ∈ l → y ∈ l → f x = f y → x = y.
Proof.
  induction l as [|a l IH]; intros Hnd Hx Hy Hf; [by apply elem_of_nil in Hx|].
  rewrite fmap_cons in Hnd. apply NoDup_cons in Hnd as [Ha Hnd].
  apply elem_of_cons in Hx as [->|Hx]; apply elem_of_cons in Hy as [->|Hy].
  - done.
  - destruct Ha. rewrite Hf. by apply list_elem_of_fmap_2.
  - destruct Ha. rewrite <- Hf. by apply list_elem_of_fmap_2.
  - by apply IH.
Qed.

(** Which paths the result holds, when no two found paths are the same. *)
Lemma listed_iff_in_week (today : WeeklyFiles.datetime) (all_files : list WeeklyFiles.entry)
    (e : WeeklyFiles.entry) :
  NoDup (WeeklyFiles.file_path <$> all_files) →
  e ∈ all_files →
  WeeklyFiles.file_path e ∈ WeeklyFiles.get_current_week_files today all_files
  ↔ WeeklyFiles.in_week today e = true.
Proof.
  intros Hnd He. unfold WeeklyFiles.get_current_week_files.
  rewrite merge_sort_Permutation, list_elem_of_fmap. split.
  - intros (e' & Hpath & Hin). apply list_elem_of_filter in Hin as [Hweek He'].
    by rewrite (fmap_NoDup_inj WeeklyFiles.file_path all_files e e' Hnd He He' Hpath).
  - intros Hweek. exists e. split; [done|]. by apply list_elem_of_filter.
Qed.

Lemma in_week_dated (today : WeeklyFiles.datetime) (e : WeeklyFiles.entry) (d : Z) :
  0 ≤ WeeklyFiles.micros today →
  WeeklyFiles.is_dir e = false →
  WeeklyFiles.name_date e = Some d →
  WeeklyFiles.in_week today e = true
  ↔ (let monday := WeeklyFiles.ordinal today - WeeklyFiles.weekday today in
     (monday < d ≤ monday + 6) ∨ (d = monday ∧ WeeklyFiles.micros today = 0)).
Proof.
  intros Hmicros Hdir Hdate. unfold WeeklyFiles.in_week. rewrite Hdir, Hdate.
  unfold WeeklyFiles.datetime_le, WeeklyFiles.add_days.
  cbn [WeeklyFiles.ordinal WeeklyFiles.micros]. cbn zeta.
  rewrite andb_true_iff, !orb_true_iff, !andb_true_iff,
    !Z.ltb_lt, !Z.eqb_eq, !Z.leb_le. lia.
Qed.

Lemma sample_listing_NoDup : NoDup (WeeklyFiles.file_path <$> sample_listing).
Proof. apply (bool_decide_unpack _). vm_compute. exact I. Defined.

(** X23: which dated files are listed. With [monday] the day [weekday()]
    days before today, a file dated [d] is listed when [d] is one of the six
    days after [monday]; the file dated [monday] itself is listed only when
    the function runs at midnight exactly, because the lower bound of the
    window carries the time of day of [now()] and the file's date is at
    00:00. *)
Theorem week_window (today : WeeklyFiles.datetime) (all_files : list WeeklyFiles.entry)
    (e : WeeklyFiles.entry) (d : Z) :
  0 ≤ WeeklyFiles.micros today →
  NoDup (WeeklyFiles.file_path <$> all_files) →
  e ∈ all_files →
  WeeklyFiles.is_dir e = false →
  WeeklyFiles.name_date e = Some d →
  WeeklyFiles.file_path e ∈ WeeklyFiles.get_current_week_files today all_files
  ↔ (let monday := WeeklyFiles.ordinal today - WeeklyFiles.weekday today in
     (monday < d ≤ monday + 6) ∨ (d = monday ∧ WeeklyFiles.micros today = 0)).
Proof.
  intros Hmicros Hnd He Hdir Hdate.
  rewrite (listed_iff_in_week today all_files e Hnd He).
  by apply in_week_dated.
Qed.

Lemma week_window_witness :
  "daily/20241112"
  ∈ WeeklyFiles.get_current_week_files
      {| WeeklyFiles.ordinal := 739204; WeeklyFiles.micros := 36000000000 |} sample_listing.
Proof.
  apply (week_window {| WeeklyFiles.ordinal := 739204; WeeklyFiles.micros := 36000000000 |}
           sample_listing
           {| WeeklyFiles.file_path := "daily/20241112"; WeeklyFiles.is_dir := false;
              WeeklyFiles.name_date := Some 739202 |} 739202).
  - discriminate.
  - exact sample_listing_NoDup.
  - do 2 apply list_elem_of_further. apply list_elem_of_here.
  - reflexivity.
  - reflexivity.
  - left. vm_compute. split; [reflexivity | discriminate].
Defined.

(** X24: the file dated today is listed on every day of the week but
    Monday; on a Monday it is listed only at midnight exactly. *)
Theorem today_file_listed (today : WeeklyFiles.datetime)
    (all_files : list WeeklyFiles.entry) (e : WeeklyFiles.entry) :
  0 ≤ WeeklyFiles.micros today →
  NoDup (WeeklyFiles.file_path <$> all_files) →
  e ∈ all_files →
  WeeklyFiles.is_dir e = false →
  WeeklyFiles.name_date e = Some (WeeklyFiles.ordinal today) →
  WeeklyFiles.file_path e ∈ WeeklyFiles.get_current_week_files today all_files
  ↔ WeeklyFiles.weekday today ≠ 0 ∨ WeeklyFiles.micros today = 0.
Proof.
  intros Hmicros Hnd He Hdir Hdate.
  rewrite (listed_iff_in_week today all_files e Hnd He).
  rewrite (in_week_dated today e _ Hmicros Hdir Hdate). cbn zeta.
  pose proof (Z.mod_pos_bound (WeeklyFiles.ordinal today + 6) 7 ltac:(lia)) as Hwd.
  unfold WeeklyFiles.weekday. lia.
Qed.

Lemma today_file_listed_witness :
  "daily/20241111"
  ∉ WeeklyFiles.get_current_week_files
      {| WeeklyFiles.ordinal := 739201; WeeklyFiles.micros := 1 |} sample_listing.
Proof.
  intros H.
  apply (today_file_listed {| WeeklyFiles.ordinal := 739201; WeeklyFiles.micros := 1 |}
           sample_listing
           {| WeeklyFiles.file_path := "daily/20241111"; WeeklyFiles.is_dir := false;
              WeeklyFiles.name_date := Some 739201 |}) in H.
  - destruct H as [H|H]; [by apply H | discriminate H].
  - discriminate.
  - exact sample_listing_NoDup.
  - do 4 apply list_elem_of_further. apply list_elem_of_here.
  - reflexivity.
  - reflexivity.
Defined.

(** X25: the result is in ascending string order, and each path in it is
    the path of a found entry that is no directory and whose name parsed as a
    date; directories and names that are no date are never listed, and the
    result is no longer than the listing. *)
Theorem week_files_sorted (today : WeeklyFiles.datetime)
    (all_files : list WeeklyFiles.entry) :
  Sorted WeeklyFiles.path_le (WeeklyFiles.get_current_week_files today all_files)
  ∧ (∀ p : string,
       p ∈ WeeklyFiles.get_current_week_files today all_files →
       ∃ (e : WeeklyFiles.entry) (d : Z),
         e ∈ all_files ∧ WeeklyFiles.file_path e = p
         ∧ WeeklyFiles.is_dir e = false ∧ WeeklyFiles.name_date e = Some d)
  ∧ (length (WeeklyFiles.get_current_week_files today all_files) ≤ length all_files)%nat.
Proof.
  unfold WeeklyFiles.get_current_week_files. split; [|split].
  - apply (Sorted_merge_sort _ (Total0 := path_le_total)).
  - intros p. rewrite merge_sort_Permutation, list_elem_of_fmap.
    intros (e & -> & Hin). apply list_elem_of_filter in Hin as [Hweek He].
    unfold WeeklyFiles.in_week in Hweek.
    destruct (WeeklyFiles.is_dir e) eqn:Hdir; [discriminate|].
    destruct (WeeklyFiles.name_date e) as [d|] eqn:Hdate; [|discriminate].
    by exists e, d.
  - rewrite merge_sort_Permutation, length_fmap. apply length_filter.
Qed.
